(** * NAAC accreditation portal: authorization, aggregation and error handling

    A shallow embedding of the Express application of [backend/server.js],
    [backend/routes/admin.js] and [backend/routes/criteria.js], and the
    properties of its authorization gates, of the admin "all files"
    aggregation and of the error-handling chain. *)

From Stdlib Require Import ZArith Lia Ascii String.
From stdpp Require Import base option list strings gmap sorting.

Local Open Scope Z_scope.
Local Open Scope string_scope.

(** ** JavaScript helpers *)

Module Js.

(** [s.includes(search)] on strings. *)
Fixpoint includes (s search : string) : bool :=
  String.prefix search s ||
  match s with
  | EmptyString => false
  | String _ s' => includes s' search
  end.

(** Conversion of a possibly [undefined] string inside a template literal. *)
Definition template (o : option string) : string := default "undefined" o.

(** [arr.join(sep)]: [undefined] elements are rendered as the empty string. *)
Fixpoint join (sep : string) (l : list (option string)) : string :=
  match l with
  | [] => ""
  | [x] => default "" x
  | x :: l' => default "" x +:+ sep +:+ join sep l'
  end.

(** Truthiness of a possibly [undefined] string. *)
Definition truthy (o : option string) : bool :=
  match o with
  | None | Some "" => false
  | Some _ => true
  end.

(** [o === s] for a possibly [undefined] string [o] and a literal [s]. *)
Definition strict_eq (o : option string) (s : string) : bool :=
  bool_decide (o = Some s).

(** The double quote character, for literals that contain it. *)
Definition dquote : string := String "034"%char "".

End Js.

(** ** The error-handling chain of [server.js] *)

Module Server.

(** The value of [err.code]: storage errors carry a number, upload errors a
    string. *)
Inductive ErrCode := CodeNum (n : Z) | CodeStr (s : string).

Global Instance ErrCode_eq_dec : EqDecision ErrCode.
Proof. solve_decision. Defined.

(** The properties of an error object that the handlers read. An object
    ([keyValue], [errors]) is the list of its own keys, in order, with the
    part of each value that is read. *)
Record JsError := {
  instanceof_MulterError : bool;
  err_name : option string;
  err_message : option string;
  err_code : option ErrCode;
  err_keyValue : option (list (string * string));
  err_errors : option (list (string * option string));
  err_stack : option string
}.

(** The [error] member of the development response. *)
Record ErrorDetail := {
  detail_name : option string;
  detail_message : option string;
  detail_stack : option string
}.

Record Body := {
  success : bool;
  message : string;
  timestamp : option string;
  availableRoutes : option (list string);
  error : option ErrorDetail
}.

Record Response := { statusCode : Z; body : Body }.

(** The body [{ success: false, message }] under a status. *)
Definition failure (code : Z) (msg : string) : Response :=
  {| statusCode := code;
     body := {| success := false; message := msg; timestamp := None;
                availableRoutes := None; error := None |} |}.

(** What the handlers read besides the error: [res.headersSent],
    [process.env.NODE_ENV], the clock behind [new Date().toISOString()], the
    request line, and the stack trace that the runtime records in an
    exception thrown by the statement at a given line of [server.js]. *)
Record Env := {
  headersSent : bool;
  NODE_ENV : option string;
  now : string;
  req_method : string;
  originalUrl : string;
  stack_at : Z → string
}.

(** The [TypeError] that the runtime throws at a line, as the handlers after
    it see it. *)
Definition TypeError (env : Env) (line : Z) (msg : string) : JsError :=
  {| instanceof_MulterError := false;
     err_name := Some "TypeError";
     err_message := Some msg;
     err_code := None;
     err_keyValue := None;
     err_errors := None;
     err_stack := Some (stack_at env line) |}.

(** [Object.keys(undefined)] and [Object.values(undefined)] *)
Definition null_to_object (env : Env) (line : Z) : JsError :=
  TypeError env line "Cannot convert undefined or null to object".

(** The error that setting a header throws once the response has been
    started. *)
Definition headers_sent (env : Env) (line : Z) : JsError :=
  {| instanceof_MulterError := false;
     err_name := Some "Error";
     err_message := Some "Cannot set headers after they are sent to the client";
     err_code := Some (CodeStr "ERR_HTTP_HEADERS_SENT");
     err_keyValue := None;
     err_errors := None;
     err_stack := Some (stack_at env line) |}.

(** An error-handling middleware sends a response, calls [next(err)] or
    throws. *)
Inductive Outcome :=
| Sent (r : Response)
| NextErr (e : JsError)
| Thrown (e : JsError).

(** [return res.status(code).json(body)] at a line: on a started response
    the call throws and nothing is sent. *)
Definition json (env : Env) (line : Z) (r : Response) : Outcome :=
  if headersSent env then Thrown (headers_sent env line) else Sent r.

(** [err.message && err.message.includes('Invalid file type')] *)
Definition file_validation_error (err : JsError) : bool :=
  Js.truthy (err_message err)
  && Js.includes (default "" (err_message err)) "Invalid file type".

(** Multer error handling middleware. *)
Definition multerErrorHandler (env : Env) (err : JsError) : Outcome :=
  if instanceof_MulterError err then
    match err_code err with
    | Some (CodeStr "LIMIT_FILE_SIZE") =>
        json env 163 (failure 400 "File too large. Maximum size is 10MB.")
    | Some (CodeStr "LIMIT_UNEXPECTED_FILE") =>
        json env 169 (failure 400 ("Unexpected field name. Expected " +:+ Js.dquote
                                   +:+ "file" +:+ Js.dquote +:+ "."))
    | Some (CodeStr "LIMIT_FILE_COUNT") =>
        json env 175 (failure 400 "Too many files. Only 1 file allowed per upload.")
    | Some (CodeStr "LIMIT_PART_COUNT") =>
        json env 181 (failure 400 "Too many form parts.")
    | _ =>
        json env 187 (failure 400 ("Upload error: " +:+ Js.template (err_message err)))
    end
  else if file_validation_error err then
    json env 197 (failure 400 (default "" (err_message err)))
  else NextErr err.

(** Cloudinary error handling middleware. *)
Definition cloudinaryErrorHandler (env : Env) (err : JsError) : Outcome :=
  if Js.strict_eq (err_name err) "CloudinaryError" then
    json env 214 (failure 500 "Cloud storage error. Please try again later.")
  else NextErr err.

(** Database error handling middleware. [Object.values] and [Object.keys]
    throw on [undefined]. *)
Definition databaseErrorHandler (env : Env) (err : JsError) : Outcome :=
  if Js.strict_eq (err_name err) "MongoError" || Js.strict_eq (err_name err) "MongooseError"
     || Js.strict_eq (err_name err) "MongoNetworkError" then
    json env 231 (failure 500 "Database connection error. Please try again.")
  else if Js.strict_eq (err_name err) "ValidationError" then
    match err_errors err with
    | None => Thrown (null_to_object env 242)
    | Some errors =>
        let validationErrors := snd <$> errors in
        json env 243
          (failure 400 ("Validation error: " +:+ Js.join ", " validationErrors))
    end
  else if Js.strict_eq (err_name err) "CastError" then
    json env 255 (failure 400 "Invalid ID format")
  else if bool_decide (err_code err = Some (CodeNum 11000)) then
    match err_keyValue err with
    | None => Thrown (null_to_object env 266)
    | Some keyValue =>
        let field := head (fst <$> keyValue) in
        json env 267
          (failure 400 ("Duplicate " +:+ Js.template field +:+ " value entered"))
    end
  else NextErr err.

(** JWT error handling middleware. *)
Definition jwtErrorHandler (env : Env) (err : JsError) : Outcome :=
  if Js.strict_eq (err_name err) "JsonWebTokenError" then
    json env 282 (failure 401 "Invalid authentication token")
  else if Js.strict_eq (err_name err) "TokenExpiredError" then
    json env 292 (failure 401 "Authentication token has expired")
  else NextErr err.

(** 404 handler for undefined routes: an ordinary (two-argument) middleware. *)
Definition notFoundHandler (env : Env) : Response :=
  {| statusCode := 404;
     body := {| success := false;
                message := "Route " +:+ req_method env +:+ " "
                           +:+ originalUrl env +:+ " not found";
                timestamp := None;
                availableRoutes :=
                  Some ["GET /health"; "GET /api/test"; "* /api/auth/*";
                        "* /api/criteria/*"; "* /api/forgot-password/*";
                        "* /api/files/*"];
                error := None |} |}.

(** Generic error handling middleware. *)
Definition genericErrorHandler (env : Env) (err : JsError) : Outcome :=
  if headersSent env then NextErr err
  else
    Sent {| statusCode := 500;
            body := {| success := false;
                       message := "Internal server error";
                       timestamp := Some (now env);
                       availableRoutes := None;
                       error :=
                         if Js.strict_eq (NODE_ENV env) "development" then
                           Some {| detail_name := err_name err;
                                   detail_message := err_message err;
                                   detail_stack := err_stack err |}
                         else None |} |}.

(** A layer registered with [app.use]: error-handling middleware take four
    arguments, ordinary ones fewer. *)
Inductive Layer :=
| ErrorLayer (h : JsError → Outcome)
| PlainLayer (h : Response).

(** How the request ends: with a response of the application, or with the
    error handed to the framework's own final handler. *)
Inductive Final :=
| Responded (r : Response)
| Unhandled (e : JsError).

(** Propagation of an error through the remaining layers: ordinary layers
    are skipped, and what an error layer throws replaces the error. *)
Fixpoint propagate (layers : list Layer) (err : JsError) : Final :=
  match layers with
  | [] => Unhandled err
  | PlainLayer _ :: layers' => propagate layers' err
  | ErrorLayer h :: layers' =>
      match h err with
      | Sent r => Responded r
      | NextErr e | Thrown e => propagate layers' e
      end
  end.

(** The layers before the generic handler, in registration order. *)
Definition classifiers (env : Env) : list Layer :=
  [ ErrorLayer (multerErrorHandler env);
    ErrorLayer (cloudinaryErrorHandler env);
    ErrorLayer (databaseErrorHandler env);
    ErrorLayer (jwtErrorHandler env);
    PlainLayer (notFoundHandler env) ].

Definition errorChain (env : Env) (err : JsError) : Final :=
  propagate (classifiers env ++ [ErrorLayer (genericErrorHandler env)]) err.

(** A body with its [timestamp] member left out. *)
Definition without_timestamp (b : Body) : Body :=
  {| success := success b; message := message b; timestamp := None;
     availableRoutes := availableRoutes b; error := error b |}.

End Server.

(** ** The record store *)

Module Store.

Definition ObjectId := N.

(** Modelled from the spec: the type of [criteriaNumber] and [metricNumber],
    which [models/CriteriaData.js] declares and which is not among the
    sources: a number or a string. *)
Inductive Scalar := Num (n : Z) | Str (s : string).

Global Instance Scalar_eq_dec : EqDecision Scalar.
Proof. solve_decision. Defined.

(** The order the database sorts such values in: numbers before strings,
    numbers by value, strings byte-wise. *)
Definition scalar_le (a b : Scalar) : Prop :=
  match a, b with
  | Num x, Num y => (x ≤ y)%Z
  | Num _, Str _ => True
  | Str _, Num _ => False
  | Str s, Str t => String.le s t
  end.

Global Instance scalar_le_dec : RelDecision scalar_le.
Proof. intros [x|s] [y|t]; simpl; apply _. Defined.

(** Modelled from the spec: the status of a record (section 3). *)
Inductive Status := draft | submitted | reviewed | rejected.

Global Instance Status_eq_dec : EqDecision Status.
Proof. solve_decision. Defined.

(** Modelled from the spec: an attachment descriptor (section 3). *)
Record FileDescriptor := {
  url : string;
  originalName : string;
  size : N;
  uploadedAt : Z
}.

Global Instance FileDescriptor_eq_dec : EqDecision FileDescriptor.
Proof. solve_decision. Defined.

(** Modelled from the spec: a document of the [CriteriaData] collection,
    whose model file is not among the sources, with the fields that the
    pipeline of [routes/admin.js] reads and the [school] of section 3. *)
Record CriteriaRecord := {
  _id : ObjectId;
  userId : ObjectId;
  school : string;
  criteriaNumber : Scalar;
  metricNumber : Scalar;
  files : list FileDescriptor;
  status : Status;
  createdAt : Z
}.

Global Instance CriteriaRecord_eq_dec : EqDecision CriteriaRecord.
Proof. solve_decision. Defined.

(** Modelled from the spec: a document of the [users] collection, whose
    model file is not among the sources, without its [_id]: the fields that
    the pipeline of [routes/admin.js] reads. *)
Record User := {
  name : string;
  email : string
}.

(** The database: the [CriteriaData] documents in collection order, the
    [users] collection keyed by [_id], and whether the connection is up. *)
Record Db := {
  criteriadatas : list CriteriaRecord;
  users : gmap ObjectId User;
  connected : bool
}.

(** Accesses to the record store, oldest first. *)
Inductive Event :=
| CriteriaData_aggregate
| CriteriaData_find.

Definition Trace := list Event.

End Store.

(** ** Authentication and authorization middleware *)

Module Auth.
Import Store.

(** [req.user] *)
Record Principal := {
  id : ObjectId;
  role : string;
  user_school : string
}.

(** The JSON body of a response, [{ success?, message?, data?, count? }],
    under its HTTP status. *)
Record Response (D : Type) := {
  statusCode : Z;
  success : option bool;
  message : option string;
  data : option D;
  count : option nat
}.
Global Arguments statusCode {D} _.
Global Arguments success {D} _.
Global Arguments message {D} _.
Global Arguments data {D} _.
Global Arguments count {D} _.

(** [res.status(code).json({ success: false, message })] *)
Definition failure {D} (code : Z) (msg : string) : Response D :=
  {| statusCode := code; success := Some false; message := Some msg;
     data := None; count := None |}.

(** A middleware either answers the request or calls [next()]. *)
Inductive Step (D : Type) :=
| Respond (r : Response D)
| Next.
Global Arguments Respond {D} r.
Global Arguments Next {D}.

(** Evaluation of a middleware body: a value, or a thrown exception. *)
Inductive Exc (A : Type) :=
| Val (a : A)
| Throw (msg : string).
Global Arguments Val {A} a.
Global Arguments Throw {A} msg.

Global Instance Exc_ret : MRet Exc := λ A a, Val a.
Global Instance Exc_bind : MBind Exc := λ A B k m,
  match m with Val a => k a | Throw msg => Throw msg end.

(** [try { body } catch (error) { handler }] *)
Definition try_catch {A} (body : Exc A) (handler : string → A) : A :=
  match body with Val a => a | Throw msg => handler msg end.

(** [req.user.role]: reading a property of [undefined] throws. *)
Definition user_role (user : option Principal) : Exc string :=
  match user with
  | Some p => Val (role p)
  | None => Throw "Cannot read properties of undefined (reading 'role')"
  end.

(** [a !== b] on strings. *)
Definition strict_ne (a b : string) : bool := bool_decide (a ≠ b).

(** The [try] block of the admin middleware of [routes/admin.js]. *)
Definition adminAuth_body {D} (user : option Principal) : Exc (Step D) :=
  denied ← (if negb (bool_decide (is_Some user)) then mret true
             else r ← user_role user; mret (strict_ne r "admin"));
  if (denied : bool) then
    mret (Respond (failure 403 "Admin access required"))
  else mret Next.

(** Admin middleware of [routes/admin.js]. *)
Definition adminAuth {D} (user : option Principal) : Step D :=
  try_catch (adminAuth_body user)
    (λ _, Respond (failure 500 "Server error during admin authorization")).

(** What a middleware decides: admission, or the status of its denial. *)
Definition decision {D} (s : Step D) : option Z :=
  match s with
  | Next => None
  | Respond r => Some (statusCode r)
  end.

(** Modelled from the spec: the role authorization gate of
    [middleware/roleAuth.js], which is not among the sources. It admits iff
    the principal's role is one of the required roles; when a scope school
    is supplied it additionally requires an admin or a principal of that
    school. *)
Definition authorize (p : Principal) (requiredRoles : list string)
    (scopeSchool : option string) : bool :=
  bool_decide (role p ∈ requiredRoles)
  && match scopeSchool with
     | None => true
     | Some s => bool_decide (role p = "admin") || bool_decide (user_school p = s)
     end.

(** Modelled from the spec: [roleAuth(roles)] of [middleware/roleAuth.js]
    is the gate with the declared roles and no scope school; a denial is
    [Forbidden] (403). *)
Definition roleAuth {D} (roles : list string) (p : Principal) : Step D :=
  if authorize p roles None then Next
  else Respond (failure 403 "Forbidden").

(** A request as the authentication middleware sees it: the token of its
    [Authorization] header, if any. *)
Record Request := { token : option string }.

Section Verifier.
(** The signature and expiry check of the identity token. *)
Variable verify : string → option Principal.

(** Modelled from the spec: the identity claim verifier of
    [middleware/auth.js], which is not among the sources: the principal of a
    request, if its token is present and verifies. *)
Definition authenticate (req : Request) : option Principal :=
  token req ≫= verify.

(** Modelled from the spec: the middleware [auth] of [middleware/auth.js].
    It rejects with [Unauthenticated] (401) when the token is absent or does
    not verify, and otherwise attaches the decoded principal to the request;
    it does not access the record store. *)
Definition auth {D} (req : Request) : Response D + Principal :=
  match authenticate req with
  | None => inl (failure 401 "Unauthenticated")
  | Some p => inr p
  end.
End Verifier.

(** The authorization middleware a route can name. *)
Inductive Guard :=
| AdminAuth
| RoleAuth (roles : list string).

Definition guard {D} (g : Guard) (p : Principal) : Step D :=
  match g with
  | AdminAuth => adminAuth (Some p)
  | RoleAuth roles => roleAuth roles p
  end.

(** The guards of a route, in order: the first that answers ends the
    request. *)
Fixpoint guards {D} (gs : list Guard) (p : Principal) : Step D :=
  match gs with
  | [] => Next
  | g :: gs' =>
      match guard g p with
      | Respond r => Respond r
      | Next => guards gs' p
      end
  end.

(** A middleware followed by the rest [h] of the chain: when the middleware
    answers, nothing after it runs and the store is not accessed. *)
Definition and_then {D} (s : Step D) (h : Trace * Response D → Prop)
    (out : Trace * Response D) : Prop :=
  match s with
  | Respond r => out = ([], r)
  | Next => h out
  end.

End Auth.

(** ** Route tables and dispatch *)

Module Router.
Import Auth.

(** The request methods that reach the routers: those that the CORS
    configuration of [server.js] names, other than OPTIONS, which the CORS
    middleware answers before any router, then HEAD, and PATCH, for which,
    as for DELETE, no router registers a route. *)
Inductive Method := GET | POST | PUT | DELETE | HEAD | PATCH.

Global Instance Method_eq_dec : EqDecision Method.
Proof. solve_decision. Defined.

(** A route registered for a method serves the requests of that method, and
    a route registered for GET also serves the HEAD requests: its middleware
    and its handler run as for GET, and the response they make is sent
    without its body. *)
Definition serves (route_method request_method : Method) : bool :=
  bool_decide (route_method = request_method)
  || bool_decide (route_method = GET) && bool_decide (request_method = HEAD).

(** Letter case is ignored when a literal of a route path is compared (the
    routers are created without [caseSensitive]). The literals of the routes
    are ASCII, and only the ASCII letters are folded. *)
Definition lower_ascii (a : ascii) : ascii :=
  let n := N_of_ascii a in
  if (65 <=? n)%N && (n <=? 90)%N then ascii_of_N (n + 32) else a.

Fixpoint lower (s : string) : string :=
  match s with
  | EmptyString => EmptyString
  | String a s' => String (lower_ascii a) (lower s')
  end.

(** A segment of a route path: a literal, or a named parameter [:name]. *)
Inductive Segment := Lit (s : string) | Param (name : string).

Definition Params := list (string * string).

(** Whether a route is behind the authentication middleware, and the
    authorization middleware it names after it. *)
Inductive Access :=
| Public
| Authenticated (gs : list Guard).

Record Route (H : Type) := {
  method : Method;
  pattern : list Segment;
  access : Access;
  handler : H
}.
Global Arguments method {H} _.
Global Arguments pattern {H} _.
Global Arguments access {H} _.
Global Arguments handler {H} _.

Definition route_guards {H} (r : Route H) : list Guard :=
  match access r with
  | Public => []
  | Authenticated gs => gs
  end.

(** Matching of a request path against a route path. The request path is
    given relative to the mount point of the router, as its decoded
    segments, without a trailing slash. A literal matches a segment equal to
    it up to letter case, a parameter matches one non-empty segment and
    binds it. *)
Fixpoint match_path (pat : list Segment) (path : list string) : option Params :=
  match pat, path with
  | [], [] => Some []
  | Lit s :: pat', x :: path' =>
      if decide (lower s = lower x) then match_path pat' path' else None
  | Param name :: pat', x :: path' =>
      if decide (x = "") then None
      else ((name, x) ::.) <$> match_path pat' path'
  | _, _ => None
  end.

(** [req.params[name]] *)
Definition param (params : Params) (name : string) : option string :=
  (λ ikv, ikv.2.2) <$> list_find (λ kv, kv.1 = name) params.

(** The first registered route that serves the method and matches the
    path. *)
Fixpoint dispatch {H} (routes : list (Route H)) (m : Method) (path : list string)
    : option (Route H * Params) :=
  match routes with
  | [] => None
  | r :: routes' =>
      if serves (method r) m then
        match match_path (pattern r) path with
        | Some params => Some (r, params)
        | None => dispatch routes' m path
        end
      else dispatch routes' m path
  end.

End Router.

(** ** [routes/admin.js] *)

Module Admin.
Import Store Auth Router.

(** The [user] member of an output document. *)
Record UserRef := {
  user_id : ObjectId;
  user_name : string;
  user_email : string
}.

(** An output document of the pipeline; [$project] keeps [_id]. *)
Record FileRow := {
  row_id : ObjectId;
  row_criteriaNumber : Scalar;
  row_metricNumber : Scalar;
  row_files : list FileDescriptor;
  row_status : Status;
  row_createdAt : Z;
  row_user : UserRef
}.

(** [$match: { 'files.0': { $exists: true } }] *)
Definition match_stage (docs : list CriteriaRecord) : list CriteriaRecord :=
  filter (λ d, is_Some (files d !! 0%nat)) docs.

(** [$lookup]: the array [userInfo] of the users whose [_id] is the
    document's [userId]. *)
Definition lookup_stage (us : gmap ObjectId User) (docs : list CriteriaRecord)
    : list (CriteriaRecord * list (ObjectId * User)) :=
  (λ d, (d, option_list ((λ u, (userId d, u)) <$> us !! userId d))) <$> docs.

(** [$unwind: '$userInfo']: one document per element of the array, none for
    an empty array. *)
Definition unwind_stage (docs : list (CriteriaRecord * list (ObjectId * User)))
    : list (CriteriaRecord * (ObjectId * User)) :=
  docs ≫= λ di, (λ u, (di.1, u)) <$> di.2.

Definition project (du : CriteriaRecord * (ObjectId * User)) : FileRow :=
  {| row_id := _id du.1;
     row_criteriaNumber := criteriaNumber du.1;
     row_metricNumber := metricNumber du.1;
     row_files := files du.1;
     row_status := status du.1;
     row_createdAt := createdAt du.1;
     row_user := {| user_id := du.2.1;
                    user_name := name du.2.2;
                    user_email := email du.2.2 |} |}.

(** [$project] *)
Definition project_stage (docs : list (CriteriaRecord * (ObjectId * User)))
    : list FileRow :=
  project <$> docs.

(** The sort key of [$sort: { criteriaNumber: 1, 'user.name': 1 }]. *)
Definition sort_key (r : FileRow) : Scalar * string :=
  (row_criteriaNumber r, user_name (row_user r)).

(** Ascending in the first key, and in the second among equal first keys. *)
Definition key_le (k1 k2 : Scalar * string) : Prop :=
  strict scalar_le k1.1 k2.1 ∨ (k1.1 = k2.1 ∧ String.le k1.2 k2.2).

Global Instance key_le_dec : RelDecision key_le.
Proof. intros a b. unfold key_le, strict. apply _. Defined.

Definition row_le (a b : FileRow) : Prop := key_le (sort_key a) (sort_key b).

Global Instance row_le_dec : RelDecision row_le.
Proof. intros a b. unfold row_le. apply _. Defined.

(** The database returns the documents in an order that is ascending in the
    sort key; it does not fix the relative order of documents whose sort keys
    are equal. *)
Definition sort_stage (docs out : list FileRow) : Prop :=
  out ≡ₚ docs ∧ Sorted row_le out.

(** The documents that enter the [$sort] stage. *)
Definition joined (db : Db) : list FileRow :=
  project_stage (unwind_stage (lookup_stage (users db)
    (match_stage (criteriadatas db)))).

(** [CriteriaData.aggregate([...])]: the results the pipeline can produce. *)
Definition aggregate (db : Db) (out : list FileRow) : Prop :=
  sort_stage (joined db) out.

(** One of them, computed by a merge sort. *)
Definition aggregate_run (db : Db) : list FileRow :=
  merge_sort row_le (joined db).

(** [res.json({ success: true, data: criteriaFiles, count })] *)
Definition files_json (criteriaFiles : list FileRow) : Response (list FileRow) :=
  {| statusCode := 200; success := Some true; message := None;
     data := Some criteriaFiles; count := Some (length criteriaFiles) |}.

(** The handler of [GET /files]: the store accesses it makes and its
    response. The query is rejected when the connection is down. *)
Inductive filesHandler (db : Db) : Trace * Response (list FileRow) → Prop :=
| files_fetched criteriaFiles :
    connected db = true →
    aggregate db criteriaFiles →
    filesHandler db ([CriteriaData_aggregate], files_json criteriaFiles)
| files_failed :
    connected db = false →
    filesHandler db ([CriteriaData_aggregate],
                     failure 500 "Server error fetching files data").

Definition filesHandler_run (db : Db) : Trace * Response (list FileRow) :=
  if connected db then ([CriteriaData_aggregate], files_json (aggregate_run db))
  else ([CriteriaData_aggregate], failure 500 "Server error fetching files data").

(** [res.json({ message: 'Admin routes working' })] *)
Definition test_json : Response (list FileRow) :=
  {| statusCode := 200; success := None;
     message := Some "Admin routes working"; data := None; count := None |}.

Inductive Handler := Files | Test.

(** The routes of the router, in registration order. *)
Definition routes : list (Route Handler) :=
  [ {| method := GET; pattern := [Lit "files"];
       access := Authenticated [AdminAuth]; handler := Files |};
    {| method := GET; pattern := [Lit "test"];
       access := Public; handler := Test |} ].

Definition handle (db : Db) (h : Handler)
    (out : Trace * Response (list FileRow)) : Prop :=
  match h with
  | Files => filesHandler db out
  | Test => out = ([], test_json)
  end.

Definition handle_run (db : Db) (h : Handler) : Trace * Response (list FileRow) :=
  match h with
  | Files => filesHandler_run db
  | Test => ([], test_json)
  end.

Section Verifier.
Variable verify : string → option Principal.

(** A route: its middleware in order, then its handler. *)
Definition route (db : Db) (req : Request) (r : Route Handler)
    (out : Trace * Response (list FileRow)) : Prop :=
  match access r with
  | Public => handle db (handler r) out
  | Authenticated gs =>
      match auth verify req with
      | inl resp => out = ([], resp)
      | inr p => and_then (guards gs p) (handle db (handler r)) out
      end
  end.

Definition route_run (db : Db) (req : Request) (r : Route Handler)
    : Trace * Response (list FileRow) :=
  match access r with
  | Public => handle_run db (handler r)
  | Authenticated gs =>
      match auth verify req with
      | inl resp => ([], resp)
      | inr p =>
          match guards gs p with
          | Respond resp => ([], resp)
          | Next => handle_run db (handler r)
          end
      end
  end.

(** The router: the outputs it can produce for a request; none when no
    route matches and the request is left to the application. *)
Definition router (db : Db) (req : Request) (m : Method) (path : list string)
    (out : Trace * Response (list FileRow)) : Prop :=
  match dispatch routes m path with
  | Some (r, _) => route db req r out
  | None => False
  end.

Definition router_run (db : Db) (req : Request) (m : Method)
    (path : list string) : option (Trace * Response (list FileRow)) :=
  (λ rp, route_run db req rp.1) <$> dispatch routes m path.

(** [router.get('/files', auth, adminAuth, handler)] *)
Definition filesRoute (db : Db) (req : Request)
    (out : Trace * Response (list FileRow)) : Prop :=
  router db req GET ["files"] out.

End Verifier.

End Admin.

(** ** [routes/criteria.js] *)

Module Criteria.
Import Store Auth Router.

(** The controllers of [controllers/criteriaController.js]. *)
Inductive Controller :=
| saveCriteriaData
| getCriteriaData
| getAllUsersWithData
| getSchoolData
| submitCriteriaData.

Global Instance Controller_eq_dec : EqDecision Controller.
Proof. solve_decision. Defined.

(** The routes of the router, in registration order; all of them are behind
    [router.use(auth)]. *)
Definition routes : list (Route Controller) :=
  [ {| method := POST; pattern := [Lit "save"];
       access := Authenticated []; handler := saveCriteriaData |};
    {| method := GET; pattern := [Lit "admin"; Lit "users"];
       access := Authenticated [RoleAuth ["admin"]];
       handler := getAllUsersWithData |};
    {| method := GET; pattern := [Lit "school"; Param "school"];
       access := Authenticated [RoleAuth ["admin"]];
       handler := getSchoolData |};
    {| method := PUT; pattern := [Lit "submit"; Param "id"];
       access := Authenticated []; handler := submitCriteriaData |};
    {| method := GET; pattern := [Param "criteriaNumber"];
       access := Authenticated []; handler := getCriteriaData |} ].

(** Where a request ends in the router: answered by a middleware, handed to
    a controller with the route parameters and the principal, or matched by
    no route. *)
Inductive Routed (D : Type) :=
| Reply (r : Response D)
| Invoke (c : Controller) (params : Params) (p : Principal)
| Unmatched.
Global Arguments Reply {D} r.
Global Arguments Invoke {D} c params p.
Global Arguments Unmatched {D}.

(** The school aggregation answers with the records grouped by owner. *)
Definition SchoolGroups := list (ObjectId * list CriteriaRecord).

(** Modelled from the spec: [findBySchool] of the record store, which is not
    among the sources: the records of a school. *)
Definition findBySchool (s : string) (db : Db) : list CriteriaRecord :=
  filter (λ r, school r = s) (criteriadatas db).

(** Modelled from the spec: grouping by owner, owners in order of first
    appearance. *)
Definition groupByOwner (rs : list CriteriaRecord) : SchoolGroups :=
  (λ o, (o, filter (λ r, userId r = o) rs)) <$> remove_dups (userId <$> rs).

Definition school_json (groups : SchoolGroups) : Response SchoolGroups :=
  {| statusCode := 200; success := Some true; message := None;
     data := Some groups; count := Some (length groups) |}.

(** Modelled from the spec: the controller [getSchoolData] of
    [controllers/criteriaController.js], which is not among the sources. It
    is restricted to an admin, or to a school admin whose own school is the
    requested one, fails with [Forbidden] before touching the store
    otherwise, and returns all records of the school grouped by owner. *)
Definition schoolData (s : string) (p : Principal) (db : Db)
    : Trace * Response SchoolGroups :=
  if bool_decide (role p = "admin")
     || bool_decide (role p = "school_admin") && bool_decide (user_school p = s)
  then ([CriteriaData_find], school_json (groupByOwner (findBySchool s db)))
  else ([], failure 403 "Forbidden").

Section Router.
Context {D : Type}.
Variable verify : string → option Principal.

(** The router: authentication first, then the first matching route, its
    guards and its controller. *)
Definition router (req : Request) (m : Method) (path : list string) : Routed D :=
  match auth verify req with
  | inl r => Reply r
  | inr p =>
      match dispatch routes m path with
      | None => Unmatched
      | Some (r, params) =>
          match guards (route_guards r) p with
          | Respond resp => Reply resp
          | Next => Invoke (handler r) params p
          end
      end
  end.

(** The controllers: the store accesses each makes and its response. *)
Variable controller : Controller → Params → Principal → Db → Trace * Response D.

(** The router with its controllers; [None] when no route matches. *)
Definition api (db : Db) (req : Request) (m : Method) (path : list string)
    : option (Trace * Response D) :=
  match router req m path with
  | Reply r => Some ([], r)
  | Invoke c params p => Some (controller c params p db)
  | Unmatched => None
  end.

End Router.

(** The controller of [GET /school/:school] reads [req.params.school]. *)
Definition serves_schoolData
    (controller : Controller → Params → Principal → Db → Trace * Response SchoolGroups)
    : Prop :=
  ∀ params p db s, param params "school" = Some s →
    controller getSchoolData params p db = schoolData s p db.

(** Admission to the school data as the specification words it. *)
Definition schoolData_admits_spec (p : Principal) (s : string) : Prop :=
  role p = "admin" ∨ (role p = "school_admin" ∧ user_school p = s).

End Criteria.

(** ** The authorization decisions of the two routers *)

Module Gates.
Import Auth Router.

(** The centralized gate: [roleAuth] with some set of roles. *)
Definition central_gate (g : Guard) : Prop := ∃ roles, g = RoleAuth roles.

Global Instance central_gate_dec g : Decision (central_gate g).
Proof.
  destruct g as [|roles]; [right|left].
  - intros [roles ?]; discriminate.
  - by exists roles.
Defined.

(** The authorization middleware named by the routes of both routers. *)
Definition all_guards : list Guard :=
  (Admin.routes ≫= route_guards) ++ (Criteria.routes ≫= route_guards).

End Gates.

(** ** Sample data *)

Module Samples.
Import Server.

Definition production : Env :=
  {| headersSent := false; NODE_ENV := Some "production";
     now := "2024-01-01T00:00:00.000Z";
     req_method := "POST"; originalUrl := "/api/criteria/save";
     stack_at := λ _, "    at Layer.handle_error (express/lib/router/layer.js)" |}.

(** A duplicate-key error as the storage driver names it ([MongoError]). *)
Definition mongo_duplicate : JsError :=
  {| instanceof_MulterError := false;
     err_name := Some "MongoError";
     err_message := Some "E11000 duplicate key error collection: naac.users index: email_1";
     err_code := Some (CodeNum 11000);
     err_keyValue := Some [("email", "soet@example.com")];
     err_errors := None;
     err_stack := Some "MongoError: E11000 duplicate key error" |}.

(** The same violation under the name [MongoServerError]. *)
Definition server_duplicate : JsError :=
  {| instanceof_MulterError := false;
     err_name := Some "MongoServerError";
     err_message := Some "E11000 duplicate key error collection: naac.users index: email_1";
     err_code := Some (CodeNum 11000);
     err_keyValue := Some [("email", "soet@example.com")];
     err_errors := None;
     err_stack := Some "MongoServerError: E11000 duplicate key error" |}.

(** The error of the token library for a bad signature. *)
Definition invalid_signature : JsError :=
  {| instanceof_MulterError := false;
     err_name := Some "JsonWebTokenError";
     err_message := Some "invalid signature";
     err_code := None;
     err_keyValue := None;
     err_errors := None;
     err_stack := Some "JsonWebTokenError: invalid signature" |}.

(** The error of the token library for an expired token. *)
Definition jwt_expired : JsError :=
  {| instanceof_MulterError := false;
     err_name := Some "TokenExpiredError";
     err_message := Some "jwt expired";
     err_code := None;
     err_keyValue := None;
     err_errors := None;
     err_stack := Some "TokenExpiredError: jwt expired" |}.

(** An error no handler classifies. *)
Definition range_error : JsError :=
  {| instanceof_MulterError := false;
     err_name := Some "RangeError";
     err_message := Some "Maximum call stack size exceeded";
     err_code := None;
     err_keyValue := None;
     err_errors := None;
     err_stack := Some "RangeError: Maximum call stack size exceeded" |}.

(** A request whose response has already been started. *)
Definition streaming : Env :=
  {| headersSent := true; NODE_ENV := Some "production";
     now := "2024-01-01T00:00:00.000Z";
     req_method := "GET"; originalUrl := "/api/files/download";
     stack_at := λ _, "    at Layer.handle_error (express/lib/router/layer.js)" |}.

Import Store Auth.

Definition lincoln_admin : Principal :=
  {| id := 7%N; role := "school_admin"; user_school := "Lincoln High" |}.

Definition site_admin : Principal :=
  {| id := 1%N; role := "admin"; user_school := "SOET" |}.

Definition teacher : Principal :=
  {| id := 2%N; role := "user"; user_school := "Lincoln High" |}.

(** A verifier that knows three tokens. *)
Definition verify (t : string) : option Principal :=
  if decide (t = "admin-token") then Some site_admin
  else if decide (t = "lincoln-token") then Some lincoln_admin
  else if decide (t = "teacher-token") then Some teacher
  else None.

Definition bearer (t : string) : Request := {| token := Some t |}.

Definition evidence : FileDescriptor :=
  {| url := "https://files.example/evidence.pdf";
     originalName := "evidence.pdf"; size := 1024%N; uploadedAt := 1700000000 |}.

Definition record (i owner : N) (c m : Z) (fs : list FileDescriptor)
    : CriteriaRecord :=
  {| _id := i; userId := owner; school := "Lincoln High";
     criteriaNumber := Num c; metricNumber := Num m;
     files := fs; status := draft; createdAt := 1700000000 |}.

Definition asha : User := {| name := "Asha"; email := "asha@example.com" |}.

(** One record with a file whose owner is not in the [users] collection. *)
Definition orphan_db : Db :=
  {| criteriadatas := [record 10 99 1 1 [evidence]];
     users := {[ 2%N := asha ]};
     connected := true |}.

(** Two records of one owner under the same criterion, both with a file, and
    a third without files. *)
Definition tie_db : Db :=
  {| criteriadatas := [record 10 2 1 1 [evidence]; record 11 2 1 2 [evidence];
                       record 12 2 3 1 []];
     users := {[ 2%N := asha ]};
     connected := true |}.

(** Controllers that all answer as the school aggregation does. *)
Definition school_controller (c : Criteria.Controller) (params : Router.Params)
    (p : Principal) (db : Db) : Trace * Response Criteria.SchoolGroups :=
  Criteria.schoolData (default "" (Router.param params "school")) p db.

Definition row (i : N) (c m : Z) : Admin.FileRow :=
  {| Admin.row_id := i;
     Admin.row_criteriaNumber := Num c;
     Admin.row_metricNumber := Num m;
     Admin.row_files := [evidence];
     Admin.row_status := draft;
     Admin.row_createdAt := 1700000000;
     Admin.row_user := {| Admin.user_id := 2%N; Admin.user_name := "Asha";
                          Admin.user_email := "asha@example.com" |} |}.

End Samples.

(** ** Further definitions *)

Module Classes.
Import Server.

(** The shape of the responses of the classifying handlers: a failure body
    under one of three statuses. *)
Definition classified (r : Response) : Prop :=
  ∃ code msg, r = failure code msg ∧ code ∈ [400; 401; 500].

End Classes.

Module Matching.
Import Router.

(** Whether a route matches a method and a path. *)
Definition route_matches {H} (m : Method) (path : list string) (r : Route H) : Prop :=
  serves (method r) m = true ∧ is_Some (match_path (pattern r) path).

End Matching.

(** ** The health check of [server.js] *)

Module Health.
Import Server.

(** [a || b] for a possibly [undefined] string [a]. *)
Definition or_else (a : option string) (b : string) : string :=
  if Js.truthy a then default b a else b.

(** What the health check reads from the process and from the database
    connection; [V] is the type of the values it passes on unchanged. *)
Record Runtime (V : Type) := {
  process_uptime : V;
  process_version : string;
  process_memoryUsage : V;
  connection_readyState : Z
}.
Global Arguments process_uptime {V} _.
Global Arguments process_version {V} _.
Global Arguments process_memoryUsage {V} _.
Global Arguments connection_readyState {V} _.

Record HealthStatus (V : Type) := {
  health_success : bool;
  health_message : string;
  health_timestamp : string;
  health_uptime : V;
  health_environment : string;
  health_nodejs : string;
  health_memory : V;
  health_database : string
}.
Global Arguments health_success {V} _.
Global Arguments health_message {V} _.
Global Arguments health_timestamp {V} _.
Global Arguments health_uptime {V} _.
Global Arguments health_environment {V} _.
Global Arguments health_nodejs {V} _.
Global Arguments health_memory {V} _.
Global Arguments health_database {V} _.

(** Health check route: the body of its 200 response. *)
Definition healthStatus {V} (env : Env) (rt : Runtime V) : HealthStatus V :=
  {| health_success := true;
     health_message := "Server is running";
     health_timestamp := now env;
     health_uptime := process_uptime rt;
     health_environment := or_else (NODE_ENV env) "development";
     health_nodejs := process_version rt;
     health_memory := process_memoryUsage rt;
     health_database :=
       if decide (connection_readyState rt = 1) then "Connected"
       else "Disconnected" |}.

End Health.

(** ** Further sample data *)

Module MoreSamples.
Import Server.

(** An upload error for a file over the size limit. *)
Definition upload_error : JsError :=
  {| instanceof_MulterError := true;
     err_name := Some "MulterError";
     err_message := Some "File too large";
     err_code := Some (CodeStr "LIMIT_FILE_SIZE");
     err_keyValue := None;
     err_errors := None;
     err_stack := Some "MulterError: File too large" |}.

(** The error of a rejected file type. *)
Definition invalid_type : JsError :=
  {| instanceof_MulterError := false;
     err_name := Some "Error";
     err_message := Some "Invalid file type. Only PDF files are allowed.";
     err_code := None;
     err_keyValue := None;
     err_errors := None;
     err_stack := Some "Error: Invalid file type. Only PDF files are allowed." |}.

(** A second unclassified error, with the name of [Samples.range_error]. *)
Definition range_error_other : JsError :=
  {| instanceof_MulterError := false;
     err_name := Some "RangeError";
     err_message := Some "Invalid array length";
     err_code := None;
     err_keyValue := None;
     err_errors := None;
     err_stack := Some "RangeError: Invalid array length" |}.

(** A validation error that carries no [errors] object. *)
Definition validation_without_errors : JsError :=
  {| instanceof_MulterError := false;
     err_name := Some "ValidationError";
     err_message := Some "Validation failed";
     err_code := None;
     err_keyValue := None;
     err_errors := None;
     err_stack := Some "ValidationError: Validation failed" |}.

(** A process started without [NODE_ENV]. *)
Definition unset_env : Env :=
  {| headersSent := false; NODE_ENV := None;
     now := "2024-01-01T00:00:00.000Z";
     req_method := "GET"; originalUrl := "/health";
     stack_at := λ _, "    at Layer.handle_error (express/lib/router/layer.js)" |}.

(** A development deployment. *)
Definition development : Env :=
  {| headersSent := false; NODE_ENV := Some "development";
     now := "2024-01-01T00:00:00.000Z";
     req_method := "GET"; originalUrl := "/api/criteria/1";
     stack_at := λ _, "    at Layer.handle_error (express/lib/router/layer.js)" |}.

Definition runtime : Health.Runtime string :=
  {| Health.process_uptime := "12.5";
     Health.process_version := "v18.17.0";
     Health.process_memoryUsage := "rss";
     Health.connection_readyState := 0 |}.

(** The store of [Samples.tie_db] with the connection down. *)
Definition down_db : Store.Db :=
  {| Store.criteriadatas := Store.criteriadatas Samples.tie_db;
     Store.users := Store.users Samples.tie_db;
     Store.connected := false |}.

End MoreSamples.

(** * Properties *)

(** ** The error-handling chain *)

Module ServerProofs.
Import Server.

Lemma propagate_app l1 l2 err :
  propagate (l1 ++ l2) err =
  match propagate l1 err with
  | Responded r => Responded r
  | Unhandled e => propagate l2 e
  end.
Proof.
  revert err. induction l1 as [|[h|r] l1 IH]; intros err; simpl; [done| |done].
  destruct (h err); auto.
Qed.

Lemma strict_eq_true o s : Js.strict_eq o s = true ↔ o = Some s.
Proof. unfold Js.strict_eq. apply bool_decide_eq_true. Qed.

Lemma strict_eq_false o s : Js.strict_eq o s = false ↔ o ≠ Some s.
Proof. unfold Js.strict_eq. apply bool_decide_eq_false. Qed.

(** On a response that has not been started the body is sent. *)
Lemma json_sent env line r : headersSent env = false → json env line r = Sent r.
Proof. unfold json. by intros ->. Qed.

(** On a started response the call throws. *)
Lemma json_thrown env line r :
  headersSent env = true → json env line r = Thrown (headers_sent env line).
Proof. unfold json. by intros ->. Qed.

Lemma json_Sent_inv env line r0 r :
  json env line r0 = Sent r → r = r0 ∧ headersSent env = false.
Proof. unfold json. destruct (headersSent env); [done|]. by intros [= <-]. Qed.

(** An error that is neither an upload error, a file validation error nor a
    cloud storage error arrives at the database handler. *)
Lemma errorChain_database env err :
  instanceof_MulterError err = false →
  file_validation_error err = false →
  err_name err ≠ Some "CloudinaryError" →
  errorChain env err =
  match databaseErrorHandler env err with
  | Sent r => Responded r
  | NextErr e | Thrown e =>
      propagate [ErrorLayer (jwtErrorHandler env);
                 PlainLayer (notFoundHandler env);
                 ErrorLayer (genericErrorHandler env)] e
  end.
Proof.
  intros Hm Hf Hc. unfold errorChain, classifiers. cbn [app propagate].
  unfold multerErrorHandler, cloudinaryErrorHandler.
  rewrite Hm, Hf. by apply strict_eq_false in Hc as ->.
Qed.

Example mongo_duplicate_response :
  errorChain Samples.production Samples.mongo_duplicate
  = Responded (failure 500 "Database connection error. Please try again.").
Proof. vm_compute. reflexivity. Qed.

Example server_duplicate_response :
  errorChain Samples.production Samples.server_duplicate
  = Responded (failure 400 "Duplicate email value entered").
Proof. vm_compute. reflexivity. Qed.

(** X20: an error with code 11000 that no earlier branch answers (it is not
    an upload or file validation error, and its name is none of
    CloudinaryError, MongoError, MongooseError, MongoNetworkError,
    ValidationError, CastError) and that carries a [keyValue] object is
    answered, on a response that has not been started, with HTTP 400,
    [success: false] and the message "Duplicate <first key> value entered",
    which is built from the key name alone. *)
Theorem duplicate_key_bad_request env err keyValue :
  headersSent env = false →
  err_code err = Some (CodeNum 11000) →
  err_keyValue err = Some keyValue →
  instanceof_MulterError err = false →
  file_validation_error err = false →
  err_name err ∉ [Some "CloudinaryError"; Some "MongoError"; Some "MongooseError";
                  Some "MongoNetworkError"; Some "ValidationError";
                  Some "CastError"] →
  errorChain env err
  = Responded (failure 400 ("Duplicate " +:+ Js.template (head keyValue.*1)
                            +:+ " value entered")).
Proof.
  intros Hs Hcode Hkv Hm Hf Hname.
  rewrite !not_elem_of_cons in Hname.
  destruct Hname as (Hc & H1 & H2 & H3 & H4 & H5 & _).
  rewrite errorChain_database by done. unfold databaseErrorHandler.
  apply strict_eq_false in H1 as ->. apply strict_eq_false in H2 as ->.
  apply strict_eq_false in H3 as ->. apply strict_eq_false in H4 as ->.
  apply strict_eq_false in H5 as ->. simpl.
  rewrite Hcode, Hkv, bool_decide_eq_true_2 by done. by rewrite json_sent.
Qed.

Lemma duplicate_key_bad_request_witness :
  errorChain Samples.production Samples.server_duplicate
  = Responded (failure 400 "Duplicate email value entered").
Proof.
  apply (duplicate_key_bad_request Samples.production Samples.server_duplicate
           [("email", "soet@example.com")]); try reflexivity.
  apply (bool_decide_unpack _). vm_compute. exact I.
Defined.

(** A duplicate-key error is not always answered 400. *)
Lemma duplicate_key_not_always_400 :
  ¬ (∀ env err, err_code err = Some (CodeNum 11000) →
       ∃ r, errorChain env err = Responded r
            ∧ statusCode r = 400 ∧ success (body r) = false).
Proof.
  intros H.
  destruct (H Samples.production Samples.mongo_duplicate eq_refl)
    as (r & Hr & Hstatus & _).
  rewrite mongo_duplicate_response in Hr. by simplify_eq.
Qed.

(** C6, the code at the failing input: a duplicate-key error (code 11000)
    that the storage driver names MongoError is answered by the branch for
    connection errors, which tests the name before the code is looked at:
    HTTP 500 "Database connection error", not the 400 of the duplicate-key
    branch. *)
Theorem duplicate_key_named_MongoError env err :
  err_code err = Some (CodeNum 11000) →
  err_name err = Some "MongoError" →
  instanceof_MulterError err = false →
  file_validation_error err = false →
  headersSent env = false →
  errorChain env err
  = Responded (failure 500 "Database connection error. Please try again.")
  ∧ statusCode (failure 500 "Database connection error. Please try again.")
    ≠ 400.
Proof.
  intros _ Hname Hm Hf Hs. split; [|done].
  rewrite errorChain_database by (by rewrite ?Hname).
  unfold databaseErrorHandler. rewrite Hname. simpl. by rewrite json_sent.
Qed.

Lemma duplicate_key_named_MongoError_witness :
  errorChain Samples.production Samples.mongo_duplicate
  = Responded (failure 500 "Database connection error. Please try again.")
  ∧ statusCode (failure 500 "Database connection error. Please try again.")
    ≠ 400.
Proof.
  apply (duplicate_key_named_MongoError Samples.production
           Samples.mongo_duplicate); reflexivity.
Defined.

(** A duplicate-key error without [keyValue] makes the handler throw, and
    the replacement error ends in the generic handler. *)
Lemma duplicate_key_without_keyValue env err :
  err_code err = Some (CodeNum 11000) →
  err_keyValue err = None →
  instanceof_MulterError err = false →
  file_validation_error err = false →
  err_name err = Some "MongoServerError" →
  errorChain env err
  = propagate [ErrorLayer (genericErrorHandler env)] (null_to_object env 266).
Proof.
  intros Hcode Hkv Hm Hf Hname.
  rewrite errorChain_database by (by rewrite ?Hname).
  unfold databaseErrorHandler. by rewrite Hname, Hcode, Hkv.
Qed.

(** C7 as stated fails: once the response has been started the handler's
    call to send the 401 throws, nothing is sent, and the error that reaches
    the framework is the one thrown. *)
Lemma token_error_on_started_response :
  ¬ (∀ env err,
       err_name err = Some "JsonWebTokenError"
       ∨ err_name err = Some "TokenExpiredError" →
       instanceof_MulterError err = false →
       file_validation_error err = false →
       err_code err ≠ Some (CodeNum 11000) →
       ∃ r, errorChain env err = Responded r ∧ statusCode r = 401).
Proof.
  intros H.
  destruct (H Samples.streaming Samples.invalid_signature) as (r & Hr & _);
    [by left|done|done|done|].
  vm_compute in Hr. discriminate.
Qed.

(** C7, as the code has it: on a response that has not been started, an
    error named JsonWebTokenError or TokenExpiredError, as the token library
    raises for an invalid signature or an expired token (not an upload
    error, no file validation message, no duplicate-key code), is answered
    with HTTP 401 and [success: false]; the status is neither 403 nor a
    2xx. *)
Theorem token_errors_unauthenticated env err :
  headersSent env = false →
  err_name err = Some "JsonWebTokenError"
  ∨ err_name err = Some "TokenExpiredError" →
  instanceof_MulterError err = false →
  file_validation_error err = false →
  err_code err ≠ Some (CodeNum 11000) →
  ∃ r, errorChain env err = Responded r
       ∧ statusCode r = 401 ∧ success (body r) = false
       ∧ statusCode r ≠ 403 ∧ ¬ (200 ≤ statusCode r < 300).
Proof.
  intros Hs Hname Hm Hf Hcode.
  assert (databaseErrorHandler env err = NextErr err) as Hdb.
  { unfold databaseErrorHandler.
    rewrite (bool_decide_eq_false_2 _ Hcode).
    by destruct Hname as [-> | ->]. }
  assert (err_name err ≠ Some "CloudinaryError") as Hc.
  { by destruct Hname as [-> | ->]. }
  rewrite errorChain_database, Hdb by done.
  cbn [propagate]. unfold jwtErrorHandler.
  destruct Hname as [-> | ->]; simpl; rewrite json_sent by done;
    (eexists; split; [reflexivity|]; simpl; repeat split; lia).
Qed.

Lemma token_errors_unauthenticated_witness :
  ∃ r, errorChain Samples.production Samples.invalid_signature = Responded r
       ∧ statusCode r = 401 ∧ success (body r) = false
       ∧ statusCode r ≠ 403 ∧ ¬ (200 ≤ statusCode r < 300).
Proof.
  apply token_errors_unauthenticated.
  - reflexivity.
  - left. reflexivity.
  - reflexivity.
  - vm_compute. reflexivity.
  - simpl. discriminate.
Defined.

Example jwt_expired_response :
  errorChain Samples.production Samples.jwt_expired
  = Responded (failure 401 "Authentication token has expired").
Proof. vm_compute. reflexivity. Qed.

(** The generic handler answers 500 unless the response has been started. *)
Lemma genericErrorHandler_sent env err :
  headersSent env = false →
  ∃ r, genericErrorHandler env err = Sent r
       ∧ statusCode r = 500 ∧ success (body r) = false
       ∧ message (body r) = "Internal server error"
       ∧ timestamp (body r) = Some (now env)
       ∧ (NODE_ENV env ≠ Some "development" → error (body r) = None).
Proof.
  intros Hsent. unfold genericErrorHandler. rewrite Hsent.
  eexists. split; [reflexivity|]. simpl. repeat split.
  intros Hprod. by apply strict_eq_false in Hprod as ->.
Qed.

(** In production the body of the generic handler is the same for all
    errors and all requests, up to the timestamp. *)
Lemma genericErrorHandler_production env1 env2 e1 e2 r1 r2 :
  NODE_ENV env1 ≠ Some "development" →
  NODE_ENV env2 ≠ Some "development" →
  genericErrorHandler env1 e1 = Sent r1 →
  genericErrorHandler env2 e2 = Sent r2 →
  statusCode r1 = statusCode r2
  ∧ without_timestamp (body r1) = without_timestamp (body r2).
Proof.
  intros H1%strict_eq_false H2%strict_eq_false.
  unfold genericErrorHandler. rewrite H1, H2.
  destruct (headersSent env1), (headersSent env2); try done.
  by intros [= <-] [= <-].
Qed.

(** C8 as stated fails: once the response has been started the generic
    handler sends nothing and passes the error on. *)
Lemma generic_handler_not_always_500 :
  ¬ (∀ env err e, propagate (classifiers env) err = Unhandled e →
       ∃ r, errorChain env err = Responded r ∧ statusCode r = 500).
Proof.
  intros H.
  destruct (H Samples.streaming Samples.range_error Samples.range_error eq_refl)
    as (r & Hr & _).
  vm_compute in Hr. discriminate.
Qed.

(** C8, as the code has it: an error that the earlier handlers pass on is
    answered by the generic handler with HTTP 500 and [success: false],
    provided the response has not been started; and in production
    ([NODE_ENV] other than development) the body is the same, apart from the
    timestamp, as for any other such error. When the response has been
    started the handler sends nothing and passes the error on. *)
Theorem generic_handler_unexpected env err e :
  propagate (classifiers env) err = Unhandled e →
  (headersSent env = false →
   ∃ r, errorChain env err = Responded r
        ∧ statusCode r = 500 ∧ success (body r) = false
        ∧ (NODE_ENV env ≠ Some "development" →
           ∀ env' err' e',
             propagate (classifiers env') err' = Unhandled e' →
             headersSent env' = false →
             NODE_ENV env' ≠ Some "development" →
             ∃ r', errorChain env' err' = Responded r'
                   ∧ statusCode r' = statusCode r
                   ∧ without_timestamp (body r') = without_timestamp (body r)))
  ∧ (headersSent env = true →
     genericErrorHandler env e = NextErr e
     ∧ errorChain env err = Unhandled e).
Proof.
  intros Hpass. split.
  - intros Hsent.
    destruct (genericErrorHandler_sent env e Hsent) as (r & Hr & Hst & Hsu & _).
    exists r. unfold errorChain at 1. rewrite propagate_app, Hpass.
    cbn [propagate]. rewrite Hr. repeat split; [done..|].
    intros Hprod env' err' e' Hpass' Hsent' Hprod'.
    destruct (genericErrorHandler_sent env' e' Hsent') as (r' & Hr' & _).
    exists r'. unfold errorChain. rewrite propagate_app, Hpass'.
    cbn [propagate]. rewrite Hr'. split; [done|].
    exact (genericErrorHandler_production env' env e' e r' r Hprod' Hprod Hr' Hr).
  - intros Hstarted.
    assert (genericErrorHandler env e = NextErr e) as Hg.
    { unfold genericErrorHandler. by rewrite Hstarted. }
    split; [done|]. unfold errorChain. rewrite propagate_app, Hpass.
    cbn [propagate]. by rewrite Hg.
Qed.

Lemma generic_handler_unexpected_witness :
  (∃ r, errorChain Samples.production Samples.range_error = Responded r
        ∧ statusCode r = 500 ∧ success (body r) = false
        ∧ (NODE_ENV Samples.production ≠ Some "development" →
           ∀ env' err' e',
             propagate (classifiers env') err' = Unhandled e' →
             headersSent env' = false →
             NODE_ENV env' ≠ Some "development" →
             ∃ r', errorChain env' err' = Responded r'
                   ∧ statusCode r' = statusCode r
                   ∧ without_timestamp (body r') = without_timestamp (body r)))
  ∧ (genericErrorHandler Samples.streaming Samples.range_error
     = NextErr Samples.range_error
     ∧ errorChain Samples.streaming Samples.range_error
       = Unhandled Samples.range_error).
Proof.
  split.
  - apply (generic_handler_unexpected Samples.production Samples.range_error
             Samples.range_error); reflexivity.
  - apply (generic_handler_unexpected Samples.streaming Samples.range_error
             Samples.range_error); reflexivity.
Defined.

End ServerProofs.

(** ** The sort order *)

Module OrderProofs.
Import Store Admin.

Global Instance scalar_le_po : PartialOrder scalar_le.
Proof.
  split; [split|].
  - intros [x|s]; simpl; done.
  - intros [x|s] [y|t] [z|u]; simpl; try done; [lia|apply transitivity].
  - intros [x|s] [y|t]; simpl; try done.
    + intros. f_equal. lia.
    + intros H1 H2. f_equal. exact (anti_symm String.le _ _ H1 H2).
Qed.

Global Instance scalar_le_total : Total scalar_le.
Proof.
  intros [x|s] [y|t]; simpl; auto; [lia|apply total, _].
Qed.

Global Instance key_le_po : PartialOrder key_le.
Proof.
  split; [split|].
  - intros [c n]. right. done.
  - intros [c1 n1] [c2 n2] [c3 n3]. unfold key_le; simpl.
    intros [H12|[-> H12]] [H23|[-> H23]]; [left|left|left|right]; try done.
    + exact (transitivity (R:=strict scalar_le) H12 H23).
    + split; [done|]. exact (transitivity (R:=String.le) H12 H23).
  - intros [c1 n1] [c2 n2]. unfold key_le; simpl.
    intros [[H12 N12]|[-> H12]] [[H21 N21]|[E H21]]; try done.
    + subst. by destruct N12.
    + f_equal. exact (anti_symm String.le _ _ H12 H21).
Qed.

Global Instance key_le_total : Total key_le.
Proof.
  intros [c1 n1] [c2 n2]. unfold key_le, strict; simpl.
  destruct (decide (c1 = c2)) as [->|Hne].
  - destruct (total String.le n1 n2); [left|right]; right; done.
  - destruct (total scalar_le c1 c2) as [H|H]; [left|right]; left;
      (split; [done|]); intros H'; apply Hne; by apply (anti_symm scalar_le).
Qed.

Global Instance row_le_trans : Transitive row_le.
Proof. intros a b c. unfold row_le. apply transitivity. Qed.

Global Instance row_le_total : Total row_le.
Proof. intros a b. unfold row_le. apply total, _. Qed.

Lemma row_le_antisym_key a b : row_le a b → row_le b a → sort_key a = sort_key b.
Proof. unfold row_le. apply (anti_symm key_le). Qed.

End OrderProofs.

(** ** The all-files view of [routes/admin.js] *)

Module AdminProofs.
Import Store Auth Router Admin OrderProofs.

(** The documents that enter the sort stage, in one pass over the
    collection. *)
Lemma has_first_file (fs : list FileDescriptor) :
  is_Some (fs !! 0%nat) ↔ fs ≠ [].
Proof.
  destruct fs as [|f fs]; simpl; split; done.
Qed.

Lemma omap_cons_match {A B} (f : A → option B) x l :
  omap f (x :: l) =
  match f x with
  | Some y => y :: omap f l
  | None => omap f l
  end.
Proof. done. Qed.

Lemma joined_omap db :
  joined db =
  omap (λ d, if decide (files d ≠ [])
             then (λ u, project (d, (userId d, u))) <$> users db !! userId d
             else None)
       (criteriadatas db).
Proof.
  unfold joined, project_stage, unwind_stage, lookup_stage, match_stage.
  induction (criteriadatas db) as [|d ds IH]; [done|].
  rewrite filter_cons, omap_cons_match, <- IH. clear IH.
  repeat case_decide; try (exfalso; by rewrite has_first_file in *).
  - rewrite fmap_cons, bind_cons, fmap_app. simpl.
    by destruct (users db !! userId d).
  - done.
Qed.

Lemma elem_of_joined db row :
  row ∈ joined db ↔
  ∃ d u, d ∈ criteriadatas db ∧ files d ≠ []
         ∧ users db !! userId d = Some u
         ∧ row = project (d, (userId d, u)).
Proof.
  rewrite joined_omap, list_elem_of_omap. split.
  - intros (d & Hd & Hrow). destruct (decide (files d ≠ [])); [|done].
    destruct (users db !! userId d) as [u|] eqn:Hu; [|done].
    exists d, u. by simplify_eq/=.
  - intros (d & u & Hd & Hf & Hu & ->). exists d. split; [done|].
    by rewrite decide_True, Hu.
Qed.

Lemma joined_has_files db row : row ∈ joined db → row_files row ≠ [].
Proof. intros (d & u & _ & Hf & _ & ->)%elem_of_joined. done. Qed.

(** The pipeline has a result. *)
Lemma aggregate_run_spec db : aggregate db (aggregate_run db).
Proof.
  split.
  - apply merge_sort_Permutation.
  - apply (Sorted_merge_sort _).
Qed.

Lemma filesHandler_run_spec db : filesHandler db (filesHandler_run db).
Proof.
  unfold filesHandler_run. destruct (connected db) eqn:Hc.
  - constructor; [done|apply aggregate_run_spec].
  - by constructor.
Qed.

Lemma adminAuth_Some {D} p :
  adminAuth (D:=D) (Some p) =
  if decide (role p = "admin") then Next
  else Respond (failure 403 "Admin access required").
Proof.
  unfold adminAuth, adminAuth_body, strict_ne. simpl.
  destruct (decide (role p = "admin")) as [->|Hne]; [done|].
  by rewrite bool_decide_eq_true_2.
Qed.

Lemma route_run_spec verify db req r : route verify db req r (route_run verify db req r).
Proof.
  unfold route, route_run, and_then.
  assert (∀ h, handle db h (handle_run db h)) as Hh.
  { intros [|]; [apply filesHandler_run_spec|done]. }
  destruct (access r) as [|gs]; [apply Hh|].
  destruct (auth verify req) as [resp|p]; [done|].
  destruct (guards gs p); [done|apply Hh].
Qed.

Lemma filesRoute_run_spec verify db req :
  ∃ out, router_run verify db req GET ["files"] = Some out
         ∧ filesRoute verify db req out.
Proof. eexists. split; [reflexivity|]. apply route_run_spec. Qed.

(** The route [GET /files] for an authenticated principal. *)
Lemma filesRoute_authenticated verify db req p out :
  authenticate verify req = Some p →
  filesRoute verify db req out ↔
  if decide (role p = "admin") then filesHandler db out
  else out = ([], failure 403 "Admin access required").
Proof.
  intros Hauth. unfold filesRoute, router, route, auth. simpl.
  rewrite Hauth, adminAuth_Some. by case_decide.
Qed.

Example tie_aggregate_run :
  aggregate_run Samples.tie_db = [Samples.row 10 1 1; Samples.row 11 1 2].
Proof. vm_compute. reflexivity. Qed.

Example public_test_route :
  router_run Samples.verify Samples.tie_db {| token := None |} GET ["test"]
  = Some ([], test_json).
Proof. reflexivity. Qed.

(** The rows of a successful answer are a result of the pipeline. *)
Lemma filesHandler_rows db t r rows :
  filesHandler db (t, r) → data r = Some rows → aggregate db rows.
Proof.
  inversion 1 as [rows' _ Hagg|]; simplify_eq/=; [|done].
  by intros [= <-].
Qed.

Example orphan_joined : joined Samples.orphan_db = [].
Proof. vm_compute. reflexivity. Qed.

Example tie_joined :
  joined Samples.tie_db = [Samples.row 10 1 1; Samples.row 11 1 2].
Proof. vm_compute. reflexivity. Qed.

Lemma filesRoute_admin verify db req p out :
  authenticate verify req = Some p → role p = "admin" →
  filesRoute verify db req out ↔ filesHandler db out.
Proof.
  intros Hauth Hrole. rewrite (filesRoute_authenticated _ _ _ _ _ Hauth).
  by rewrite decide_True.
Qed.

(** C3 as stated fails: a record with a file whose owner is not in the
    [users] collection is dropped by [$unwind]. *)
Lemma all_files_drops_unknown_owner :
  ¬ (∀ db out, aggregate db out →
       ∀ d, d ∈ criteriadatas db → files d ≠ [] →
            ∃ row, row ∈ out ∧ row_id row = _id d).
Proof.
  intros H.
  destruct (H Samples.orphan_db [] ) with (d := Samples.record 10 99 1 1 [Samples.evidence])
    as (row & Hrow & _).
  - split; [by rewrite orphan_joined|constructor].
  - apply list_elem_of_singleton. reflexivity.
  - done.
  - by apply not_elem_of_nil in Hrow.
Qed.

(** C3, as the code has it: for an admin, with the store reachable, the view
    answers, and its rows are exactly the records with a non-empty [files]
    list whose owner is in the [users] collection, each once and joined to
    that owner's [_id], name and email; no row has an empty [files] list.
    The rows are a result of the aggregation pipeline, which is the one
    store access. *)
Theorem all_files_view verify db req p :
  authenticate verify req = Some p → role p = "admin" → connected db = true →
  (∃ out, router_run verify db req GET ["files"] = Some out
          ∧ filesRoute verify db req out)
  ∧ ∀ out, filesRoute verify db req out →
      ∃ rows,
        out = ([CriteriaData_aggregate], files_json rows)
        ∧ aggregate db rows
        ∧ rows ≡ₚ omap (λ d, if decide (files d ≠ [])
                             then (λ u, project (d, (userId d, u)))
                                    <$> users db !! userId d
                             else None)
                       (criteriadatas db)
        ∧ (∀ row, row ∈ rows ↔
             ∃ d u, d ∈ criteriadatas db ∧ files d ≠ []
                    ∧ users db !! userId d = Some u
                    ∧ row = project (d, (userId d, u)))
        ∧ (∀ row, row ∈ rows → row_files row ≠ []).
Proof.
  intros Hauth Hrole Hup. split; [apply filesRoute_run_spec|].
  intros out Hout. apply (filesRoute_admin _ _ _ _ _ Hauth Hrole) in Hout.
  destruct Hout as [rows _ Hagg|Hdown]; [|congruence].
  pose proof Hagg as [Hperm _].
  exists rows. split; [done|]. split; [done|].
  split; [by rewrite Hperm, joined_omap|].
  split.
  - intros row. by rewrite Hperm, elem_of_joined.
  - intros row. rewrite Hperm. apply joined_has_files.
Qed.

Lemma all_files_view_witness :
  (∃ out, router_run Samples.verify Samples.tie_db
            (Samples.bearer "admin-token") GET ["files"] = Some out
          ∧ filesRoute Samples.verify Samples.tie_db
              (Samples.bearer "admin-token") out)
  ∧ ∀ out, filesRoute Samples.verify Samples.tie_db (Samples.bearer "admin-token") out →
      ∃ rows,
        out = ([CriteriaData_aggregate], files_json rows)
        ∧ aggregate Samples.tie_db rows
        ∧ rows ≡ₚ omap (λ d, if decide (files d ≠ [])
                             then (λ u, project (d, (userId d, u)))
                                    <$> users Samples.tie_db !! userId d
                             else None)
                       (criteriadatas Samples.tie_db)
        ∧ (∀ row, row ∈ rows ↔
             ∃ d u, d ∈ criteriadatas Samples.tie_db ∧ files d ≠ []
                    ∧ users Samples.tie_db !! userId d = Some u
                    ∧ row = project (d, (userId d, u)))
        ∧ (∀ row, row ∈ rows → row_files row ≠ []).
Proof.
  apply (all_files_view Samples.verify Samples.tie_db
           (Samples.bearer "admin-token") Samples.site_admin); reflexivity.
Defined.

(** Two results of the pipeline list the same sort keys in the same order. *)
Lemma aggregate_keys db out1 out2 :
  aggregate db out1 → aggregate db out2 →
  sort_key <$> out1 = sort_key <$> out2.
Proof.
  intros [Hp1 Hs1] [Hp2 Hs2].
  apply (Sorted_unique key_le).
  - by apply (Sorted_fmap sort_key row_le key_le).
  - by apply (Sorted_fmap sort_key row_le key_le).
  - by rewrite Hp1, Hp2.
Qed.

(** C4 as stated fails: two records that tie on criteriaNumber and owner
    name can come out in either order. *)
Lemma all_files_order_not_fixed :
  ¬ (∀ db out1 out2, aggregate db out1 → aggregate db out2 → out1 = out2).
Proof.
  intros H.
  assert (aggregate Samples.tie_db [Samples.row 10 1 1; Samples.row 11 1 2]) as H1.
  { split; [by rewrite tie_joined|].
    apply (bool_decide_unpack _). vm_compute. exact I. }
  assert (aggregate Samples.tie_db [Samples.row 11 1 2; Samples.row 10 1 1]) as H2.
  { split; [rewrite tie_joined; apply Permutation_swap|].
    apply (bool_decide_unpack _). vm_compute. exact I. }
  specialize (H _ _ _ H1 H2). discriminate.
Qed.

(** C4, as the code has it: every result of the aggregation behind the view
    (the rows that [GET /files] answers with) is sorted by
    criteriaNumber ascending and, within equal criteriaNumber, by owner name
    ascending; two results for the same store state hold the same rows and
    the same sequence of sort keys, and are identical when no two rows share
    both criteriaNumber and owner name. *)
Theorem all_files_sorted db out1 out2 :
  aggregate db out1 → aggregate db out2 →
  StronglySorted row_le out1
  ∧ out1 ≡ₚ out2
  ∧ sort_key <$> out1 = sort_key <$> out2
  ∧ ((∀ a b, a ∈ joined db → b ∈ joined db → sort_key a = sort_key b → a = b) →
     out1 = out2).
Proof.
  intros H1 H2. pose proof (aggregate_keys _ _ _ H1 H2) as Hkeys.
  destruct H1 as [Hp1 Hs1], H2 as [Hp2 Hs2].
  split; [by apply (Sorted_StronglySorted row_le)|].
  split; [by rewrite Hp1, Hp2|]. split; [done|].
  intros Hinj. apply (Sorted_unique_strong row_le); [|done|done|by rewrite Hp1, Hp2].
  intros a b Ha Hb Hab Hba. apply Hinj.
  - by rewrite <- Hp1.
  - by rewrite <- Hp2.
  - by apply row_le_antisym_key.
Qed.

Lemma all_files_sorted_witness :
  StronglySorted row_le (aggregate_run Samples.tie_db)
  ∧ aggregate_run Samples.tie_db ≡ₚ [Samples.row 11 1 2; Samples.row 10 1 1]
  ∧ sort_key <$> aggregate_run Samples.tie_db
    = sort_key <$> [Samples.row 11 1 2; Samples.row 10 1 1]
  ∧ ((∀ a b, a ∈ joined Samples.tie_db → b ∈ joined Samples.tie_db →
             sort_key a = sort_key b → a = b) →
     aggregate_run Samples.tie_db = [Samples.row 11 1 2; Samples.row 10 1 1]).
Proof.
  apply (all_files_sorted Samples.tie_db).
  - apply aggregate_run_spec.
  - split; [rewrite tie_joined; apply Permutation_swap|].
    apply (bool_decide_unpack _). vm_compute. exact I.
Defined.

End AdminProofs.

(** ** The authorization gates *)

Module AuthProofs.
Import Store Auth Router Admin Gates.

Lemma roleAuth_admin {D} p :
  roleAuth (D:=D) ["admin"] p =
  if decide (role p = "admin") then Next
  else Respond (failure 403 "Forbidden").
Proof.
  unfold roleAuth, authorize. rewrite andb_true_r.
  destruct (decide (role p = "admin")) as [->|Hne]; [done|].
  rewrite bool_decide_eq_false_2; [done|].
  by rewrite list_elem_of_singleton.
Qed.

(** The [try] block of the admin middleware never throws: the role is read
    only from a present principal. *)
Lemma adminAuth_body_total {D} user :
  ∃ s : Step D, adminAuth_body user = Val s ∧ adminAuth user = s.
Proof.
  destruct user as [p|]; unfold adminAuth, adminAuth_body; simpl.
  - destruct (strict_ne (role p) "admin"); eauto.
  - eauto.
Qed.

(** C10: without a principal the admin middleware does not throw: its body
    evaluates to the 403 response with [success: false], the middleware
    returns it rather than the 500 of its [catch] block, and a handler
    placed after it is not entered and the store is not accessed. *)
Theorem adminAuth_absent_principal {D} (h : Trace * Response D → Prop) out :
  adminAuth_body (D:=D) None = Val (Respond (failure 403 "Admin access required"))
  ∧ adminAuth (D:=D) None = Respond (failure 403 "Admin access required")
  ∧ statusCode (failure (D:=D) 403 "Admin access required") = 403
  ∧ success (failure (D:=D) 403 "Admin access required") = Some false
  ∧ (and_then (adminAuth None) h out
     ↔ out = ([], failure 403 "Admin access required")).
Proof.
  destruct (adminAuth_body_total (D:=D) None) as (s & Hbody & Hmw).
  assert (s = Respond (failure 403 "Admin access required")) as ->.
  { unfold adminAuth_body in Hbody. by injection Hbody as <-. }
  split; [exact Hbody|]. split; [exact Hmw|].
  split; [reflexivity|]. split; [reflexivity|].
  by rewrite Hmw.
Qed.

(** C5 as stated fails: the route [GET /files] names the middleware
    [adminAuth] of its own file, which compares the role itself. *)
Lemma files_route_bypasses_central_gate : ¬ Forall central_gate all_guards.
Proof.
  intros H. apply Forall_cons_1 in H as [[roles ?] _]. discriminate.
Qed.

(** C5, as the code has it: the criteria routes decide through [roleAuth];
    [adminAuth] is a separate check that, for every principal, admits or
    denies with 403 exactly as [roleAuth(['admin'])] does, and that denies
    an absent principal with 403. *)
Theorem adminAuth_decides_as_roleAuth {D} p :
  Forall central_gate (Criteria.routes ≫= route_guards)
  ∧ decision (guard (D:=D) AdminAuth p)
    = decision (guard (D:=D) (RoleAuth ["admin"]) p)
  ∧ decision (guard (D:=D) AdminAuth p)
    = (if decide (role p = "admin") then None else Some 403)
  ∧ decision (adminAuth (D:=D) None) = Some 403.
Proof.
  split; [|split; [|split]].
  - apply (bool_decide_unpack _). vm_compute. exact I.
  - simpl. rewrite AdminProofs.adminAuth_Some, roleAuth_admin. by case_decide.
  - simpl. rewrite AdminProofs.adminAuth_Some. by case_decide.
  - done.
Qed.

End AuthProofs.

(** ** The criteria router *)

Module CriteriaProofs.
Import Store Auth Router Admin Criteria AuthProofs.

Section Router.
Context {D : Type}.
Variable verify : string → option Principal.

Lemma router_admin_users req p :
  authenticate verify req = Some p →
  router (D:=D) verify req GET ["admin"; "users"] =
  if decide (role p = "admin") then Invoke getAllUsersWithData [] p
  else Reply (failure 403 "Forbidden").
Proof.
  intros Hauth. unfold router, auth. rewrite Hauth. simpl.
  rewrite roleAuth_admin. by case_decide.
Qed.

Lemma dispatch_school s :
  s ≠ "" →
  dispatch routes GET ["school"; s] =
  Some ({| method := GET; pattern := [Lit "school"; Param "school"];
           access := Authenticated [RoleAuth ["admin"]];
           handler := getSchoolData |}, [("school", s)]).
Proof. intros Hs. simpl. by rewrite decide_False. Qed.

Lemma router_school req p s :
  authenticate verify req = Some p → s ≠ "" →
  router (D:=D) verify req GET ["school"; s] =
  if decide (role p = "admin") then Invoke getSchoolData [("school", s)] p
  else Reply (failure 403 "Forbidden").
Proof.
  intros Hauth Hs. unfold router, auth. rewrite Hauth, dispatch_school by done.
  simpl. rewrite roleAuth_admin. by case_decide.
Qed.

End Router.

Example dispatch_criteria_number :
  dispatch routes GET ["3"]
  = Some ({| method := GET; pattern := [Param "criteriaNumber"];
             access := Authenticated []; handler := getCriteriaData |},
          [("criteriaNumber", "3")]).
Proof. reflexivity. Qed.

(** The catch-all route takes a single segment, whatever it is. *)
Example dispatch_single_segment_admin :
  handler ∘ fst <$> dispatch routes GET ["admin"] = Some getCriteriaData.
Proof. reflexivity. Qed.

Example dispatch_submit :
  handler ∘ fst <$> dispatch routes PUT ["submit"; "65f0"] = Some submitCriteriaData.
Proof. reflexivity. Qed.

Example teacher_forbidden :
  api Samples.verify Samples.school_controller Samples.tie_db
    (Samples.bearer "teacher-token") GET ["admin"; "users"]
  = Some ([], failure 403 "Forbidden").
Proof. vm_compute. reflexivity. Qed.

Example no_token_unauthenticated :
  api Samples.verify Samples.school_controller Samples.tie_db
    {| token := None |} GET ["admin"; "users"]
  = Some ([], failure 401 "Unauthenticated").
Proof. vm_compute. reflexivity. Qed.

(** C2: for a principal whose role is not admin, [GET /admin/files] and
    [GET /criteria/admin/users] both answer 403 with [success: false] and
    without any access to the record store; a request that does access the
    store on either endpoint, or that reaches the users controller, comes
    from an admin. *)
Theorem restricted_aggregations_forbidden {D} verify
    (controller : Controller → Params → Principal → Db → Trace * Response D)
    db req p :
  authenticate verify req = Some p →
  (role p ≠ "admin" →
     (∀ out, filesRoute verify db req out
             ↔ out = ([], failure 403 "Admin access required"))
     ∧ api verify controller db req GET ["admin"; "users"]
       = Some ([], failure 403 "Forbidden")
     ∧ statusCode (failure (D:=D) 403 "Forbidden") = 403
     ∧ success (failure (D:=D) 403 "Forbidden") = Some false)
  ∧ (∀ out, filesRoute verify db req out → out.1 ≠ [] → role p = "admin")
  ∧ (∀ c params q,
       router (D:=D) verify req GET ["admin"; "users"] = Invoke c params q →
       c = getAllUsersWithData ∧ q = p ∧ role p = "admin").
Proof.
  intros Hauth. split; [|split].
  - intros Hrole. split; [|split; [|done]].
    + intros out. rewrite (AdminProofs.filesRoute_authenticated _ _ _ _ _ Hauth).
      by rewrite decide_False.
    + unfold api. by rewrite (router_admin_users _ _ _ Hauth), decide_False.
  - intros out. rewrite (AdminProofs.filesRoute_authenticated _ _ _ _ _ Hauth).
    case_decide; [done|]. by intros ->.
  - intros c params q. rewrite (router_admin_users _ _ _ Hauth).
    case_decide; [|done]. by intros [= <- <- <-].
Qed.

Lemma restricted_aggregations_forbidden_witness :
  (role Samples.teacher ≠ "admin" →
     (∀ out, filesRoute Samples.verify Samples.tie_db
               (Samples.bearer "teacher-token") out
             ↔ out = ([], failure 403 "Admin access required"))
     ∧ api Samples.verify Samples.school_controller Samples.tie_db
         (Samples.bearer "teacher-token") GET ["admin"; "users"]
       = Some ([], failure 403 "Forbidden")
     ∧ statusCode (failure (D:=SchoolGroups) 403 "Forbidden") = 403
     ∧ success (failure (D:=SchoolGroups) 403 "Forbidden") = Some false)
  ∧ (∀ out, filesRoute Samples.verify Samples.tie_db
              (Samples.bearer "teacher-token") out →
            out.1 ≠ [] → role Samples.teacher = "admin")
  ∧ (∀ c params q,
       router (D:=SchoolGroups) Samples.verify (Samples.bearer "teacher-token")
         GET ["admin"; "users"] = Invoke c params q →
       c = getAllUsersWithData ∧ q = Samples.teacher
       ∧ role Samples.teacher = "admin").
Proof.
  apply (restricted_aggregations_forbidden Samples.verify
           Samples.school_controller Samples.tie_db
           (Samples.bearer "teacher-token") Samples.teacher).
  reflexivity.
Defined.

(** C9: [GET /admin/users] is dispatched to the route of
    [getAllUsersWithData], which is registered before the catch-all route;
    the catch-all pattern does not match the path, and the router never
    invokes [getCriteriaData] for it. Likewise [GET /school/X] is dispatched
    to the route of [getSchoolData] with [school = X] and never to
    [getCriteriaData]. *)
Theorem admin_users_dispatch {D} verify req p :
  authenticate verify req = Some p →
  handler <$> routes
  = [saveCriteriaData; getAllUsersWithData; getSchoolData; submitCriteriaData;
     getCriteriaData]
  ∧ (handler ∘ fst <$> dispatch routes GET ["admin"; "users"]
     = Some getAllUsersWithData)
  ∧ match_path [Param "criteriaNumber"] ["admin"; "users"] = None
  ∧ router (D:=D) verify req GET ["admin"; "users"]
    = (if decide (role p = "admin") then Invoke getAllUsersWithData [] p
       else Reply (failure 403 "Forbidden"))
  ∧ (∀ params q, router (D:=D) verify req GET ["admin"; "users"]
                 ≠ Invoke getCriteriaData params q)
  ∧ ∀ X, X ≠ "" →
      (handler ∘ fst <$> dispatch routes GET ["school"; X] = Some getSchoolData)
      ∧ snd <$> dispatch routes GET ["school"; X] = Some [("school", X)]
      ∧ match_path [Param "criteriaNumber"] ["school"; X] = None
      ∧ ∀ params q, router (D:=D) verify req GET ["school"; X]
                    ≠ Invoke getCriteriaData params q.
Proof.
  intros Hauth.
  split; [done|]. split; [done|]. split; [done|].
  split; [by apply router_admin_users|]. split.
  - intros params q. rewrite (router_admin_users _ _ _ Hauth). by case_decide.
  - intros X HX. rewrite dispatch_school by done.
    split; [done|]. split; [done|]. split; [done|].
    intros params q. rewrite (router_school _ _ _ _ Hauth) by done.
    by case_decide.
Qed.

Lemma admin_users_dispatch_witness :
  handler ∘ fst <$> dispatch routes GET ["admin"; "users"]
  = Some getAllUsersWithData
  ∧ router (D:=SchoolGroups) Samples.verify (Samples.bearer "admin-token")
      GET ["admin"; "users"]
    = Invoke getAllUsersWithData [] Samples.site_admin.
Proof.
  destruct (admin_users_dispatch (D:=SchoolGroups) Samples.verify
              (Samples.bearer "admin-token") Samples.site_admin eq_refl)
    as (_ & Hd & _ & Hr & _).
  split; [exact Hd|exact Hr].
Defined.

(** C1 as stated fails: a school admin asking for the data of their own
    school is denied by the gate of the route. *)
Lemma school_admin_own_school_denied :
  schoolData_admits_spec Samples.lincoln_admin "Lincoln High"
  ∧ api Samples.verify Samples.school_controller Samples.tie_db
      (Samples.bearer "lincoln-token") GET ["school"; "Lincoln High"]
    = Some ([], failure 403 "Forbidden").
Proof. split; [by right|]. vm_compute. reflexivity. Qed.

(** C1, as the code has it: [GET /school/S] admits a principal and returns
    the records of school S, grouped by owner, exactly when the principal's
    role is admin; every other principal is denied with 403 before the
    store is accessed. *)
Theorem school_data_admin_only verify controller db req p s :
  serves_schoolData controller →
  authenticate verify req = Some p → s ≠ "" →
  api verify controller db req GET ["school"; s]
  = Some (if decide (role p = "admin")
          then ([CriteriaData_find],
                school_json (groupByOwner (findBySchool s db)))
          else ([], failure 403 "Forbidden")).
Proof.
  intros Hc Hauth Hs. unfold api. rewrite (router_school _ _ _ _ Hauth) by done.
  case_decide as Hrole; [|done].
  rewrite (Hc _ _ _ s) by done. unfold schoolData.
  by rewrite Hrole.
Qed.

Lemma school_data_admin_only_witness :
  api Samples.verify Samples.school_controller Samples.tie_db
    (Samples.bearer "admin-token") GET ["school"; "Lincoln High"]
  = Some (if decide (role Samples.site_admin = "admin")
          then ([CriteriaData_find],
                school_json (groupByOwner (findBySchool "Lincoln High" Samples.tie_db)))
          else ([], failure 403 "Forbidden")).
Proof.
  apply (school_data_admin_only Samples.verify Samples.school_controller).
  - intros params p db s Hs. unfold Samples.school_controller. by rewrite Hs.
  - reflexivity.
  - discriminate.
Defined.

End CriteriaProofs.

(** ** Further properties of the error-handling chain *)

Module ServerExtras.
Import Server ServerProofs Classes.

Local Set Warnings "-clear-no-such-hyp".

(** What the upload handler does with an upload error. *)
Lemma multerErrorHandler_upload env err :
  instanceof_MulterError err = true →
  ∃ msg line,
    multerErrorHandler env err = json env line (failure 400 msg)
    ∧ msg ∈ ["File too large. Maximum size is 10MB.";
             "Unexpected field name. Expected " +:+ Js.dquote +:+ "file"
               +:+ Js.dquote +:+ ".";
             "Too many files. Only 1 file allowed per upload.";
             "Too many form parts.";
             "Upload error: " +:+ Js.template (err_message err)].
Proof.
  intros H. unfold multerErrorHandler. rewrite H.
  generalize (err_message err). generalize (err_code err). clear.
  intros c m.
  repeat match goal with
         | |- context [match ?x with _ => _ end] => destruct x
         end;
    (eexists _, _; split; [reflexivity|]);
    repeat first [apply list_elem_of_here | apply list_elem_of_further].
Qed.

Lemma json_classified env line code msg r :
  code ∈ [400; 401; 500] →
  json env line (failure code msg) = Sent r →
  classified r ∧ headersSent env = false.
Proof.
  intros Hcode (-> & Hs)%json_Sent_inv. split; [|done]. by exists code, msg.
Qed.

Lemma multerErrorHandler_classified env err r :
  multerErrorHandler env err = Sent r → classified r ∧ headersSent env = false.
Proof.
  destruct (instanceof_MulterError err) eqn:Hm.
  - destruct (multerErrorHandler_upload env err Hm) as (msg & line & -> & _).
    apply json_classified. set_solver.
  - unfold multerErrorHandler. rewrite Hm. case_match; [|done].
    apply json_classified. set_solver.
Qed.

Lemma cloudinaryErrorHandler_classified env err r :
  cloudinaryErrorHandler env err = Sent r →
  classified r ∧ headersSent env = false.
Proof.
  unfold cloudinaryErrorHandler. case_match; [|done].
  apply json_classified. set_solver.
Qed.

Lemma databaseErrorHandler_classified env err r :
  databaseErrorHandler env err = Sent r →
  classified r ∧ headersSent env = false.
Proof.
  unfold databaseErrorHandler.
  repeat case_match; try done; apply json_classified; set_solver.
Qed.

Lemma jwtErrorHandler_classified env err r :
  jwtErrorHandler env err = Sent r → classified r ∧ headersSent env = false.
Proof.
  unfold jwtErrorHandler.
  repeat case_match; try done; apply json_classified; set_solver.
Qed.

Lemma classifiers_classified env err r :
  propagate (classifiers env) err = Responded r →
  classified r ∧ headersSent env = false.
Proof.
  unfold classifiers. cbn [propagate].
  destruct (multerErrorHandler env err) as [r1|e1|e1] eqn:H1;
    [intros [= <-]; by eapply multerErrorHandler_classified|..];
  (destruct (cloudinaryErrorHandler env e1) as [r2|e2|e2] eqn:H2;
    [intros [= <-]; by eapply cloudinaryErrorHandler_classified|..]);
  (destruct (databaseErrorHandler env e2) as [r3|e3|e3] eqn:H3;
    [intros [= <-]; by eapply databaseErrorHandler_classified|..]);
  (destruct (jwtErrorHandler env e3) as [r4|e4|e4] eqn:H4;
    [intros [= <-]; by eapply jwtErrorHandler_classified|done..]).
Qed.

(** The chain as the classifiers followed by the generic handler. *)
Lemma errorChain_split env err :
  errorChain env err =
  match propagate (classifiers env) err with
  | Responded r => Responded r
  | Unhandled e =>
      match genericErrorHandler env e with
      | Sent r => Responded r
      | NextErr e' | Thrown e' => Unhandled e'
      end
  end.
Proof.
  unfold errorChain. rewrite propagate_app.
  by destruct (propagate (classifiers env) err).
Qed.

(** X1: whatever the error, a response of the chain has status 400, 401 or
    500 and [success: false]; it is never the body of the 404 handler, which
    errors skip. *)
Theorem errorChain_status env err r :
  errorChain env err = Responded r →
  statusCode r ∈ [400; 401; 500] ∧ success (body r) = false
  ∧ availableRoutes (body r) = None.
Proof.
  rewrite errorChain_split.
  destruct (propagate (classifiers env) err) as [r'|e] eqn:Hc.
  - intros [= <-].
    apply classifiers_classified in Hc as [(c & m & -> & Hin) _]. done.
  - unfold genericErrorHandler. destruct (headersSent env); [done|].
    intros [= <-]. simpl. split; [set_solver|done].
Qed.

Lemma errorChain_status_witness :
  statusCode (failure 401 "Invalid authentication token") ∈ [400; 401; 500]
  ∧ success (body (failure 401 "Invalid authentication token")) = false
  ∧ availableRoutes (body (failure 401 "Invalid authentication token")) = None.
Proof.
  apply (errorChain_status Samples.production Samples.invalid_signature).
  vm_compute. reflexivity.
Defined.

(** X2: every error is answered by the chain unless the response has already
    been started; an error is left to the framework only in that case. *)
Theorem errorChain_answers env err :
  (headersSent env = false → ∃ r, errorChain env err = Responded r)
  ∧ (∀ e, errorChain env err = Unhandled e → headersSent env = true).
Proof.
  rewrite errorChain_split.
  destruct (propagate (classifiers env) err) as [r'|e] eqn:Hc.
  - split; [eauto|done].
  - unfold genericErrorHandler. destruct (headersSent env); [done|].
    split; [eauto|done].
Qed.

(** X3: a response of the chain carries the error's name, message and stack
    only when [NODE_ENV] is development, and then it is the 500 of the
    generic handler; a timestamp is carried by that 500 alone. *)
Theorem errorChain_detail_only_in_development env err r :
  errorChain env err = Responded r →
  (error (body r) ≠ None →
   NODE_ENV env = Some "development" ∧ statusCode r = 500)
  ∧ (timestamp (body r) ≠ None →
     statusCode r = 500 ∧ message (body r) = "Internal server error").
Proof.
  rewrite errorChain_split.
  destruct (propagate (classifiers env) err) as [r'|e] eqn:Hc.
  - intros [= <-].
    apply classifiers_classified in Hc as [(c & m & -> & Hin) _]. by simpl.
  - unfold genericErrorHandler. destruct (headersSent env); [done|].
    intros [= <-]. simpl. split; [|done].
    unfold Js.strict_eq. by case_bool_decide.
Qed.

Lemma errorChain_detail_only_in_development_witness :
  ∃ r, errorChain MoreSamples.development Samples.range_error = Responded r
       ∧ error (body r)
         = Some {| detail_name := Some "RangeError";
                   detail_message := Some "Maximum call stack size exceeded";
                   detail_stack :=
                     Some "RangeError: Maximum call stack size exceeded" |}
       ∧ timestamp (body r) = Some (now MoreSamples.development)
       ∧ (NODE_ENV MoreSamples.development = Some "development"
          ∧ statusCode r = 500)
       ∧ (statusCode r = 500 ∧ message (body r) = "Internal server error").
Proof.
  eexists. split; [vm_compute; reflexivity|].
  split; [reflexivity|]. split; [reflexivity|].
  split;
    apply (errorChain_detail_only_in_development MoreSamples.development
             Samples.range_error); solve [vm_compute; reflexivity | done].
Defined.

(** X4: on a response that has not been started, an upload error is answered
    by the first handler, whatever its name and its other properties: HTTP
    400 with one of the four fixed messages or "Upload error: " followed by
    its message. *)
Theorem upload_errors_first env err :
  headersSent env = false →
  instanceof_MulterError err = true →
  ∃ msg, errorChain env err = Responded (failure 400 msg)
         ∧ msg ∈ ["File too large. Maximum size is 10MB.";
                  "Unexpected field name. Expected " +:+ Js.dquote +:+ "file"
                    +:+ Js.dquote +:+ ".";
                  "Too many files. Only 1 file allowed per upload.";
                  "Too many form parts.";
                  "Upload error: " +:+ Js.template (err_message err)].
Proof.
  intros Hs Hm.
  destruct (multerErrorHandler_upload env err Hm) as (msg & line & Hmsg & Hin).
  exists msg. split; [|done].
  unfold errorChain, classifiers. cbn [app propagate].
  by rewrite Hmsg, json_sent.
Qed.

Lemma upload_errors_first_witness :
  ∃ msg, errorChain Samples.production MoreSamples.upload_error
         = Responded (failure 400 msg)
         ∧ msg ∈ ["File too large. Maximum size is 10MB.";
                  "Unexpected field name. Expected " +:+ Js.dquote +:+ "file"
                    +:+ Js.dquote +:+ ".";
                  "Too many files. Only 1 file allowed per upload.";
                  "Too many form parts.";
                  "Upload error: "
                    +:+ Js.template (err_message MoreSamples.upload_error)].
Proof.
  apply (upload_errors_first Samples.production MoreSamples.upload_error);
    reflexivity.
Defined.

Lemma prefix_app p s : String.prefix p s = true ↔ ∃ post, s = p +:+ post.
Proof.
  revert s. induction p as [|a p IH]; intros [|b s]; simpl.
  - split; [by exists ""|done].
  - split; [by exists (String b s)|done].
  - split; [done|]. by intros [post ?].
  - destruct (Ascii.ascii_dec a b) as [->|Hne].
    + rewrite IH. split; intros [post H]; exists post.
      * by rewrite H.
      * by injection H.
    + split; [done|]. intros [post [= ? ?]]. done.
Qed.

Lemma includes_cons a s search :
  Js.includes (String a s) search
  = String.prefix search (String a s) || Js.includes s search.
Proof. done. Qed.

Lemma includes_nil search : Js.includes "" search = String.prefix search "".
Proof. unfold Js.includes. apply orb_false_r. Qed.

(** [includes] holds exactly of the strings that contain the search string. *)
Lemma includes_substring s search :
  Js.includes s search = true ↔ ∃ pre post, s = pre +:+ search +:+ post.
Proof.
  induction s as [|a s IH].
  - rewrite includes_nil, prefix_app. split.
    + intros [post H]. by exists "", post.
    + intros (pre & post & H). destruct pre; [by exists post|done].
  - rewrite includes_cons, orb_true_iff, prefix_app, IH. split.
    + intros [[post H]|(pre & post & ->)].
      * by exists "", post.
      * by exists (String a pre), post.
    + intros (pre & post & H). destruct pre as [|b pre]; simpl in H.
      * left. by exists post.
      * right. injection H as -> ->. by exists pre, post.
Qed.

(** X5: the file validation test of the upload handler holds exactly when
    the error has a message that contains "Invalid file type" somewhere. *)
Theorem file_validation_error_iff err :
  file_validation_error err = true ↔
  ∃ pre post, err_message err = Some (pre +:+ "Invalid file type" +:+ post).
Proof.
  unfold file_validation_error. rewrite andb_true_iff. split.
  - intros [Ht Hi]. destruct (err_message err) as [m|]; [|done].
    change (default "" (Some m)) with m in Hi.
    apply includes_substring in Hi as (pre & post & ->). eauto.
  - intros (pre & post & ->). split.
    + destruct pre; done.
    + change (default "" (Some ?m)) with m. apply includes_substring. eauto.
Qed.

(** X6: on a response that has not been started, an error that is not an
    upload error and whose message contains "Invalid file type" is answered
    400 with its own message, whatever its name and code. *)
Theorem file_validation_echo env err :
  headersSent env = false →
  instanceof_MulterError err = false →
  file_validation_error err = true →
  ∃ msg, err_message err = Some msg
         ∧ errorChain env err = Responded (failure 400 msg).
Proof.
  intros Hs Hm Hf. unfold errorChain, classifiers. cbn [app propagate].
  unfold multerErrorHandler. rewrite Hm, Hf, json_sent by done.
  unfold file_validation_error in Hf.
  destruct (err_message err) as [msg|]; [|done]. by exists msg.
Qed.

Lemma file_validation_echo_witness :
  ∃ msg, err_message MoreSamples.invalid_type = Some msg
         ∧ errorChain Samples.production MoreSamples.invalid_type
           = Responded (failure 400 msg).
Proof.
  apply (file_validation_echo Samples.production MoreSamples.invalid_type).
  - reflexivity.
  - reflexivity.
  - vm_compute. reflexivity.
Defined.

(** X19: once the response has been started no handler of the chain sends
    anything, whatever the error: a handler that tries to answer throws, and
    the framework is left with the original error, with the error of
    setting a header, or with the TypeError of a missing object. *)
Theorem started_response_unanswered env err :
  headersSent env = true →
  ∃ e, errorChain env err = Unhandled e
       ∧ (e = err
          ∨ (∃ line, e = headers_sent env line)
          ∨ (∃ line, e = null_to_object env line)).
Proof.
  intros Hs.
  assert (∀ e, (e = err ∨ (∃ line, e = headers_sent env line)
                ∨ (∃ line, e = null_to_object env line)) →
            ∃ e', propagate [ErrorLayer (jwtErrorHandler env);
                            PlainLayer (notFoundHandler env);
                            ErrorLayer (genericErrorHandler env)] e
                  = Unhandled e'
                  ∧ (e' = err ∨ (∃ line, e' = headers_sent env line)
                     ∨ (∃ line, e' = null_to_object env line))) as Htail.
  { intros e He. cbn [propagate].
    unfold jwtErrorHandler, genericErrorHandler, json. rewrite Hs.
    repeat case_match; simplify_eq; eauto 6. }
  assert (∀ e, (e = err ∨ (∃ line, e = headers_sent env line)) →
            ∃ e', propagate [ErrorLayer (databaseErrorHandler env);
                            ErrorLayer (jwtErrorHandler env);
                            PlainLayer (notFoundHandler env);
                            ErrorLayer (genericErrorHandler env)] e
                  = Unhandled e'
                  ∧ (e' = err ∨ (∃ line, e' = headers_sent env line)
                     ∨ (∃ line, e' = null_to_object env line))) as Hdb.
  { intros e He. cbn [propagate].
    destruct (databaseErrorHandler env e) as [r|e'|e'] eqn:Hd.
    - apply databaseErrorHandler_classified in Hd as [_ ?]. congruence.
    - apply Htail. unfold databaseErrorHandler, json in Hd. rewrite Hs in Hd.
      repeat case_match; simplify_eq; naive_solver.
    - apply Htail. unfold databaseErrorHandler, json in Hd. rewrite Hs in Hd.
      repeat case_match; simplify_eq; eauto 6. }
  unfold errorChain, classifiers. cbn [app propagate].
  destruct (multerErrorHandler env err) as [r|e1|e1] eqn:H1.
  - apply multerErrorHandler_classified in H1 as [_ ?]. congruence.
  - assert (e1 = err) as ->.
    { unfold multerErrorHandler in H1.
      destruct (instanceof_MulterError err) eqn:Hm.
      - destruct (multerErrorHandler_upload env err Hm) as (? & ? & Hj & _).
        unfold multerErrorHandler in Hj. rewrite Hm in Hj.
        rewrite Hj, json_thrown in H1 by done. done.
      - destruct (file_validation_error err);
          [by rewrite json_thrown in H1|by simplify_eq/=]. }
    unfold cloudinaryErrorHandler.
    destruct (Js.strict_eq (err_name err) "CloudinaryError").
    + rewrite json_thrown by done. apply Hdb. eauto.
    + apply Hdb. eauto.
  - assert (∃ line, e1 = headers_sent env line) as [line ->].
    { unfold multerErrorHandler in H1.
      destruct (instanceof_MulterError err) eqn:Hm.
      - destruct (multerErrorHandler_upload env err Hm) as (? & l & Hj & _).
        unfold multerErrorHandler in Hj. rewrite Hm in Hj.
        rewrite Hj, json_thrown in H1 by done. exists l. congruence.
      - destruct (file_validation_error err); [|done].
        rewrite json_thrown in H1 by done. eexists. by simplify_eq/=. }
    assert (cloudinaryErrorHandler env (headers_sent env line)
            = NextErr (headers_sent env line)) as -> by done.
    apply Hdb. eauto.
Qed.

Lemma started_response_unanswered_witness :
  ∃ e, errorChain Samples.streaming Samples.invalid_signature = Unhandled e
       ∧ (e = Samples.invalid_signature
          ∨ (∃ line, e = headers_sent Samples.streaming line)
          ∨ (∃ line, e = null_to_object Samples.streaming line)).
Proof.
  apply (started_response_unanswered Samples.streaming
           Samples.invalid_signature).
  reflexivity.
Defined.

Lemma responded_not_started env err r :
  errorChain env err = Responded r → headersSent env = false.
Proof.
  rewrite errorChain_split.
  destruct (propagate (classifiers env) err) as [r'|e] eqn:Hc.
  - intros _. by apply classifiers_classified in Hc as [_ ?].
  - unfold genericErrorHandler. by destruct (headersSent env).
Qed.

(** X7: outside development, two errors that are neither upload nor file
    validation errors and that differ only in message and stack are answered
    alike. *)
Theorem production_hides_message env e1 e2 :
  NODE_ENV env ≠ Some "development" →
  instanceof_MulterError e1 = false → instanceof_MulterError e2 = false →
  file_validation_error e1 = false → file_validation_error e2 = false →
  err_name e1 = err_name e2 → err_code e1 = err_code e2 →
  err_keyValue e1 = err_keyValue e2 → err_errors e1 = err_errors e2 →
  ∀ r, errorChain env e1 = Responded r ↔ errorChain env e2 = Responded r.
Proof.
  intros Hprod%strict_eq_false Hm1 Hm2 Hf1 Hf2 Hn Hc Hk He r.
  destruct (headersSent env) eqn:Hs.
  { split; intros H%responded_not_started; congruence. }
  assert (∀ e, err_name e = err_name e2 →
            propagate [ErrorLayer (jwtErrorHandler env);
                       PlainLayer (notFoundHandler env);
                       ErrorLayer (genericErrorHandler env)] e = Responded r
            ↔ propagate [ErrorLayer (jwtErrorHandler env);
                         PlainLayer (notFoundHandler env);
                         ErrorLayer (genericErrorHandler env)] e2 = Responded r)
    as Htail.
  { intros e Hne. cbn [propagate].
    unfold jwtErrorHandler, genericErrorHandler, json.
    rewrite Hne, Hprod, Hs. repeat case_match; naive_solver. }
  destruct (decide (err_name e2 = Some "CloudinaryError")) as [Hcl|Hcl].
  - unfold errorChain, classifiers. cbn [app propagate].
    unfold multerErrorHandler, cloudinaryErrorHandler.
    rewrite Hm1, Hm2, Hf1, Hf2, Hn.
    by apply strict_eq_true in Hcl as ->.
  - rewrite !errorChain_database by congruence.
    assert ((databaseErrorHandler env e1 = databaseErrorHandler env e2
             ∧ ∀ e, databaseErrorHandler env e2 ≠ NextErr e)
            ∨ (databaseErrorHandler env e1 = NextErr e1
               ∧ databaseErrorHandler env e2 = NextErr e2)) as [[-> Hno]|[-> ->]].
    { unfold databaseErrorHandler, json. rewrite Hn, Hc, Hk, He, Hs.
      destruct (Js.strict_eq (err_name e2) "MongoError"
                || Js.strict_eq (err_name e2) "MongooseError"
                || Js.strict_eq (err_name e2) "MongoNetworkError"); [by left|].
      destruct (Js.strict_eq (err_name e2) "ValidationError");
        [left; by destruct (err_errors e2)|].
      destruct (Js.strict_eq (err_name e2) "CastError"); [by left|].
      destruct (bool_decide (err_code e2 = Some (CodeNum 11000)));
        [left; by destruct (err_keyValue e2)|by right]. }
    + reflexivity.
    + by apply Htail.
Qed.

Lemma production_hides_message_witness :
  errorChain Samples.production MoreSamples.range_error_other
  = errorChain Samples.production Samples.range_error.
Proof.
  destruct (errorChain Samples.production Samples.range_error) as [r|e] eqn:Hr;
    [|discriminate].
  apply (production_hides_message Samples.production Samples.range_error
           MoreSamples.range_error_other); try reflexivity.
  - simpl. discriminate.
  - exact Hr.
Defined.

(** X8: on a response that has not been started, a validation error without
    an [errors] object, and a duplicate-key error without a [keyValue]
    object, make the database handler throw; the request is answered with
    the 500 of the generic handler, and in development the detail shown is
    that of the thrown TypeError, with the stack that the runtime recorded
    at the throwing line (242 or 266). *)
Theorem missing_object_is_unexpected env err :
  headersSent env = false →
  instanceof_MulterError err = false →
  file_validation_error err = false →
  err_name err ∉ [Some "CloudinaryError"; Some "MongoError"; Some "MongooseError";
                  Some "MongoNetworkError"] →
  ((err_name err = Some "ValidationError" ∧ err_errors err = None)
   ∨ ((err_name err ∉ [Some "ValidationError"; Some "CastError"])
      ∧ err_code err = Some (CodeNum 11000) ∧ err_keyValue err = None)) →
  ∃ line,
    line ∈ [242; 266]
    ∧ errorChain env err
      = Responded
          {| statusCode := 500;
             body := {| success := false; message := "Internal server error";
                        timestamp := Some (now env); availableRoutes := None;
                        error :=
                          if decide (NODE_ENV env = Some "development") then
                            Some {| detail_name := Some "TypeError";
                                    detail_message :=
                                      Some "Cannot convert undefined or null to object";
                                    detail_stack := Some (stack_at env line) |}
                          else None |} |}.
Proof.
  intros Hs Hm Hf Hname Hcase.
  rewrite !not_elem_of_cons in Hname.
  destruct Hname as (Hc & H1 & H2 & H3 & _).
  rewrite errorChain_database by done.
  assert (∃ line, line ∈ [242; 266]
                  ∧ databaseErrorHandler env err
                    = Thrown (null_to_object env line)) as (line & Hline & ->).
  { unfold databaseErrorHandler.
    apply strict_eq_false in H1 as ->. apply strict_eq_false in H2 as ->.
    apply strict_eq_false in H3 as ->. simpl.
    destruct Hcase as [[Hv He]|(Hn & Hcode & Hkv)].
    - exists 242. split; [set_solver|].
      rewrite (proj2 (strict_eq_true _ _) Hv). by rewrite He.
    - exists 266. split; [set_solver|].
      rewrite !not_elem_of_cons in Hn. destruct Hn as (H4 & H5 & _).
      apply strict_eq_false in H4 as ->. apply strict_eq_false in H5 as ->.
      by rewrite Hcode, Hkv. }
  exists line. split; [done|].
  cbn [propagate]. unfold jwtErrorHandler, genericErrorHandler. simpl.
  rewrite Hs. unfold Js.strict_eq. by case_bool_decide; case_decide.
Qed.

Lemma missing_object_is_unexpected_witness :
  ∃ line,
    line ∈ [242; 266]
    ∧ errorChain MoreSamples.development MoreSamples.validation_without_errors
      = Responded
          {| statusCode := 500;
             body := {| success := false; message := "Internal server error";
                        timestamp := Some (now MoreSamples.development);
                        availableRoutes := None;
                        error :=
                          if decide (NODE_ENV MoreSamples.development
                                     = Some "development") then
                            Some {| detail_name := Some "TypeError";
                                    detail_message :=
                                      Some "Cannot convert undefined or null to object";
                                    detail_stack :=
                                      Some (stack_at MoreSamples.development line) |}
                          else None |} |}.
Proof.
  apply (missing_object_is_unexpected MoreSamples.development
           MoreSamples.validation_without_errors); try reflexivity.
  - apply (bool_decide_unpack _). vm_compute. exact I.
  - left. split; reflexivity.
Defined.

End ServerExtras.

(** ** The health check *)

Module HealthExtras.
Import Server Health ServerProofs.

(** X9: when [NODE_ENV] is unset or empty the health check reports the
    environment "development", while the generic error handler leaves the
    error detail out as it does in production. *)
Theorem health_environment_default {V} env (rt : Runtime V) :
  Js.truthy (NODE_ENV env) = false →
  health_environment (healthStatus env rt) = "development"
  ∧ ∀ err r, genericErrorHandler env err = Sent r → error (body r) = None.
Proof.
  intros Hunset. split.
  - unfold healthStatus, or_else. simpl. by rewrite Hunset.
  - intros err r. unfold genericErrorHandler.
    destruct (headersSent env); [done|]. intros [= <-]. simpl.
    assert (Js.strict_eq (NODE_ENV env) "development" = false) as ->; [|done].
    apply strict_eq_false. intros Hdev. by rewrite Hdev in Hunset.
Qed.

Lemma health_environment_default_witness :
  health_environment (healthStatus MoreSamples.unset_env MoreSamples.runtime)
  = "development"
  ∧ ∀ err r, genericErrorHandler MoreSamples.unset_env err = Sent r →
             error (body r) = None.
Proof.
  apply (health_environment_default MoreSamples.unset_env MoreSamples.runtime).
  reflexivity.
Defined.

(** The health check succeeds whatever the state of the connection, which it
    reports as connected exactly in state 1. *)
Lemma health_reports_database {V} env (rt : Runtime V) :
  health_success (healthStatus env rt) = true
  ∧ (health_database (healthStatus env rt) = "Connected"
     ↔ connection_readyState rt = 1)
  ∧ (health_database (healthStatus env rt) = "Disconnected"
     ↔ connection_readyState rt ≠ 1)
  ∧ health_environment (healthStatus env rt) ≠ "".
Proof.
  unfold healthStatus, or_else. simpl.
  split; [done|]. split; [by case_decide|]. split; [by case_decide|].
  destruct (NODE_ENV env) as [[|a s]|]; done.
Qed.

End HealthExtras.

(** ** Further properties of the criteria router *)

Module CriteriaExtras.
Import Store Auth Router Criteria Matching AuthProofs CriteriaProofs.

Local Set Warnings "-clear-no-such-hyp".

(** X10: all routes of the criteria router are protected: without a valid
    token every method and path is answered 401, and a controller is only
    invoked with the principal of the request. *)
Theorem criteria_routes_protected {D} verify req :
  (authenticate verify req = None →
   ∀ m path, router (D:=D) verify req m path
             = Reply (failure 401 "Unauthenticated"))
  ∧ (∀ m path c params p,
       router (D:=D) verify req m path = Invoke c params p →
       authenticate verify req = Some p).
Proof.
  split.
  - intros Hnone m path. unfold router, auth. by rewrite Hnone.
  - intros m path c params p. unfold router, auth.
    destruct (authenticate verify req) as [q|]; [|done].
    destruct (dispatch routes m path) as [[r ps]|]; [|done].
    destruct (guards (route_guards r) q); [done|]. by intros [= _ _ ->].
Qed.

Lemma dispatch_Some {H} (routes : list (Route H)) m path r ps :
  dispatch routes m path = Some (r, ps) →
  r ∈ routes ∧ serves (method r) m = true ∧ match_path (pattern r) path = Some ps.
Proof.
  induction routes as [|r' rs IH]; simpl; [done|].
  destruct (serves (method r') m) eqn:Hm.
  - destruct (match_path (pattern r') path) as [ps'|] eqn:Hp.
    + intros [= <- <-]. split; [left|done].
    + intros (? & ? & ?)%IH. split; [by right|done].
  - intros (? & ? & ?)%IH. split; [by right|done].
Qed.

Lemma dispatch_None {H} (routes : list (Route H)) m path :
  dispatch routes m path = None ↔ ∀ r, r ∈ routes → ¬ route_matches m path r.
Proof.
  induction routes as [|r' rs IH]; simpl.
  - split; [|done]. intros _ r Hr. by apply not_elem_of_nil in Hr.
  - destruct (serves (method r') m) eqn:Hm.
    + destruct (match_path (pattern r') path) as [ps'|] eqn:Hp.
      * split; [done|]. intros Hall. destruct (Hall r'); [left|].
        split; [done|]. rewrite Hp. eauto.
      * rewrite IH. split.
        -- intros Hall r [->|Hr]%elem_of_cons; [|by apply Hall].
           intros [_ [? ?]]. congruence.
        -- intros Hall r Hr. apply Hall. by right.
    + rewrite IH. split.
      * intros Hall r [->|Hr]%elem_of_cons; [|by apply Hall].
        intros [? _]. congruence.
      * intros Hall r Hr. apply Hall. by right.
Qed.

Lemma dispatch_unique {H} (routes : list (Route H)) m path r ps :
  (∀ r1 r2, r1 ∈ routes → r2 ∈ routes →
            route_matches m path r1 → route_matches m path r2 → r1 = r2) →
  r ∈ routes → serves (method r) m = true →
  match_path (pattern r) path = Some ps →
  dispatch routes m path = Some (r, ps).
Proof.
  intros Huniq Hr Hm Hp.
  destruct (dispatch routes m path) as [[r' ps']|] eqn:Hd.
  - apply dispatch_Some in Hd as (Hr' & Hm' & Hp').
    assert (r' = r) as ->.
    { apply Huniq; [done|done|split; [done|by rewrite Hp']|split; [done|by rewrite Hp]]. }
    congruence.
  - exfalso. eapply dispatch_None; [exact Hd|exact Hr|].
    split; [done|]. rewrite Hp. eauto.
Qed.

Lemma criteria_routes_exclusive m path r1 r2 :
  r1 ∈ routes → r2 ∈ routes →
  route_matches m path r1 → route_matches m path r2 → r1 = r2.
Proof.
  unfold routes. rewrite !elem_of_cons, !elem_of_nil.
  intros H1 H2 [Hm1 [ps1 Hp1]] [Hm2 [ps2 Hp2]].
  destruct m; destruct path as [|a [|b [|c l]]];
    destruct_or!; subst; simpl in *; try done;
    repeat case_decide; simplify_eq/=; try done; congruence.
Qed.

(** X11: no request matches two routes of the criteria router, so
    registering the same routes in another order dispatches every request
    to the same route. *)
Theorem dispatch_order_irrelevant (routes' : list (Route Controller)) m path :
  routes' ≡ₚ routes → dispatch routes' m path = dispatch routes m path.
Proof.
  intros Hperm.
  destruct (dispatch routes m path) as [[r ps]|] eqn:Hd.
  - apply dispatch_Some in Hd as (Hr & Hm & Hp).
    apply dispatch_unique; [|by rewrite Hperm|done|done].
    intros r1 r2 H1 H2. rewrite Hperm in H1, H2.
    by apply criteria_routes_exclusive.
  - apply dispatch_None. intros r Hr. rewrite Hperm in Hr.
    revert r Hr. by apply dispatch_None.
Qed.

Lemma dispatch_order_irrelevant_witness :
  dispatch (reverse routes) GET ["school"; "Lincoln High"]
  = dispatch routes GET ["school"; "Lincoln High"].
Proof.
  apply (dispatch_order_irrelevant (reverse routes)).
  apply reverse_Permutation.
Defined.

Local Arguments lower : simpl never.



End CriteriaExtras.

(** ** Further properties of the admin router *)

Module AdminExtras.
Import Store Auth Router Admin OrderProofs AdminProofs AuthProofs.

Local Set Warnings "-clear-no-such-hyp".

(** X13: the admin middleware admits exactly a present principal whose role
    is the string admin, and answers every other request with the 403; the
    500 of its [catch] block is never sent. *)
Theorem adminAuth_admits_iff {D} user :
  (adminAuth (D:=D) user = Next ↔ ∃ p, user = Some p ∧ role p = "admin")
  ∧ (adminAuth (D:=D) user = Next
     ∨ adminAuth (D:=D) user = Respond (failure 403 "Admin access required")).
Proof.
  destruct user as [p|].
  - rewrite adminAuth_Some. case_decide as Hr; split; eauto.
    + split; [eauto|done].
    + split; [done|]. by intros (q & [= <-] & ?).
  - split; [|by right]. split; [done|]. by intros (q & ? & ?).
Qed.

Local Arguments lower : simpl never.


(** X15: when the aggregation is rejected, an admin is answered 500 with
    the fixed message "Server error fetching files data" and nothing else. *)
Theorem files_store_down verify db req p :
  authenticate verify req = Some p → role p = "admin" →
  connected db = false →
  ∀ out, filesRoute verify db req out
         ↔ out = ([CriteriaData_aggregate],
                  failure 500 "Server error fetching files data").
Proof.
  intros Hauth Hrole Hdown out.
  rewrite (filesRoute_admin _ _ _ _ _ Hauth Hrole). split.
  - inversion 1; [congruence|done].
  - intros ->. by constructor.
Qed.

Lemma files_store_down_witness :
  filesRoute Samples.verify MoreSamples.down_db (Samples.bearer "admin-token")
    ([CriteriaData_aggregate], failure 500 "Server error fetching files data").
Proof.
  apply (files_store_down Samples.verify MoreSamples.down_db
           (Samples.bearer "admin-token") Samples.site_admin); reflexivity.
Defined.

Lemma NoDup_omap_key {A B K} (f : A → option B) (g : A → K) (h : B → K) l :
  (∀ x y, f x = Some y → h y = g x) →
  NoDup (g <$> l) → NoDup (h <$> omap f l).
Proof.
  intros Hkey. induction l as [|x l IH]; [done|].
  rewrite fmap_cons, NoDup_cons. intros [Hx Hl].
  rewrite omap_cons_match. destruct (f x) as [y|] eqn:Hy; [|by apply IH].
  rewrite fmap_cons, NoDup_cons. split; [|by apply IH].
  rewrite (Hkey _ _ Hy). intros Hin. apply Hx.
  apply list_elem_of_fmap in Hin as (y' & -> & Hy').
  apply list_elem_of_omap in Hy' as (x' & Hx' & Hfx').
  rewrite (Hkey _ _ Hfx'). by apply list_elem_of_fmap_2.
Qed.

(** X16: when the records of the store have distinct [_id]s, so have the
    rows of the view: the join repeats no record. *)
Theorem aggregate_row_ids_distinct db rows :
  NoDup (_id <$> criteriadatas db) →
  aggregate db rows →
  NoDup (row_id <$> rows).
Proof.
  intros Hids [Hperm _]. rewrite Hperm, joined_omap.
  apply (NoDup_omap_key _ _id); [|done].
  intros d row. case_decide; [|done].
  destruct (users db !! userId d); [|done]. by intros [= <-].
Qed.

Lemma aggregate_row_ids_distinct_witness :
  NoDup (row_id <$> aggregate_run Samples.tie_db).
Proof.
  apply (aggregate_row_ids_distinct Samples.tie_db).
  - apply (bool_decide_unpack _). vm_compute. exact I.
  - apply aggregate_run_spec.
Defined.

Lemma length_omap_filter {A B} (f : A → option B) (l : list A) :
  length (omap f l) = length (filter (λ x, is_Some (f x)) l).
Proof.
  induction l as [|x l IH]; [done|].
  rewrite omap_cons_match, filter_cons.
  destruct (f x) as [y|] eqn:Hy.
  - rewrite decide_True by eauto. simpl. by rewrite IH.
  - rewrite decide_False; [done|]. by intros [? ?].
Qed.

(** X17: the [count] of a successful answer is the length of [data], and
    both are the number of records with a non-empty [files] list and an
    owner in the [users] collection. *)
Theorem files_count verify db req p out :
  authenticate verify req = Some p → role p = "admin" →
  connected db = true →
  filesRoute verify db req out →
  ∃ rows,
    data out.2 = Some rows
    ∧ count out.2 = Some (length rows)
    ∧ length rows
      = length (filter (λ d, files d ≠ [] ∧ is_Some (users db !! userId d))
                       (criteriadatas db)).
Proof.
  intros Hauth Hrole Hup Hout.
  apply (filesRoute_admin _ _ _ _ _ Hauth Hrole) in Hout.
  destruct Hout as [rows _ [Hperm _]|]; [|congruence].
  exists rows. split; [done|]. split; [done|].
  rewrite Hperm, joined_omap, length_omap_filter.
  f_equal. apply list_filter_iff. intros d.
  case_decide; [|by intros; split; [intros [? ?]|intros [? ?]]].
  rewrite fmap_is_Some. naive_solver.
Qed.

Lemma files_count_witness :
  ∃ rows,
    data (filesHandler_run Samples.tie_db).2 = Some rows
    ∧ count (filesHandler_run Samples.tie_db).2 = Some (length rows)
    ∧ length rows
      = length (filter (λ d, files d ≠ []
                             ∧ is_Some (users Samples.tie_db !! userId d))
                       (criteriadatas Samples.tie_db)).
Proof.
  apply (files_count Samples.verify Samples.tie_db
           (Samples.bearer "admin-token") Samples.site_admin);
    try reflexivity.
  apply (filesRoute_admin Samples.verify _ _ Samples.site_admin);
    try reflexivity.
  apply filesHandler_run_spec.
Defined.

(** X18: [GET /files] answers every request, with status 200, 401, 403 or
    500; only the 200 carries data; the store is accessed at most once, by
    the aggregation, and only for an admin. *)
Theorem files_route_outcomes verify db req :
  (∃ out, filesRoute verify db req out)
  ∧ ∀ out, filesRoute verify db req out →
      statusCode out.2 ∈ [200; 401; 403; 500]
      ∧ (is_Some (data out.2) ↔ statusCode out.2 = 200)
      ∧ (out.1 = [] ∨ out.1 = [CriteriaData_aggregate])
      ∧ (out.1 ≠ [] →
         ∃ p, authenticate verify req = Some p ∧ role p = "admin").
Proof.
  split.
  { destruct (filesRoute_run_spec verify db req) as (out & _ & Hout). eauto. }
  intros out. destruct (authenticate verify req) as [p|] eqn:Hauth.
  - rewrite (filesRoute_authenticated _ _ _ _ _ Hauth).
    case_decide as Hrole.
    + intros [rows _ _|_]; simpl.
      * split; [set_solver|]. split; [split; eauto|]. split; [by right|eauto].
      * split; [set_solver|]. split; [split; [by intros [? ?]|done]|].
        split; [by right|eauto].
    + intros ->. simpl. split; [set_solver|].
      split; [split; [by intros [? ?]|done]|]. split; [by left|done].
  - unfold filesRoute, router, route, auth. simpl. rewrite Hauth.
    intros ->. simpl. split; [set_solver|].
    split; [split; [by intros [? ?]|done]|]. split; [by left|done].
Qed.

End AdminExtras.
